(** * Meeting-notes summarizer: the request handlers of backend/main.py

    A shallow embedding of the FastAPI handlers that the service exposes
    (create, fetch, update-summary, send-email, delete) over an explicit
    world: the two MongoDB collections, the trace of SMTP calls and the
    process output.  What the surroundings answer during one request (the
    clock, the uuid generator, the database driver, the SMTP relay, the
    text that [str] gives for an exception) is collected in [Env]. *)

From Stdlib Require Import ZArith Lia.
From stdpp Require Import base option list strings pretty.

Local Open Scope Z_scope.

(** ** Exceptions *)

(** [HTTPException] is FastAPI's; it is a subclass of [Exception], as is
    everything else that is raised here. *)
Inductive Exception : Type :=
| HTTPException (status_code : Z) (detail : string)
| ValidationError (field : string)
| DuplicateKeyError (key : string)
| DriverError (msg : string).

Definition is_HTTPException (e : Exception) : bool :=
  match e with
  | HTTPException _ _ => true
  | _ => false
  end.

(** The three response categories of the error taxonomy. *)
Inductive Category : Type := NotFound | BadInput | ServerError.

(** How the framework reports what a handler raises: an [HTTPException]
    by its status code, anything else as an internal server error. *)
Definition status_of (e : Exception) : Z :=
  match e with
  | HTTPException c _ => c
  | _ => 500
  end.

Definition category_of (e : Exception) : Category :=
  if status_of e =? 404 then NotFound
  else if status_of e =? 400 then BadInput
  else ServerError.

(** ** Documents and request bodies *)

Module Transcript.
(** A document of [db.transcripts]; timestamps are microseconds, as
    [datetime] has them. *)
Record t : Type := Build {
  id : string;
  title : string;
  original_text : string;
  custom_prompt : option string;
  generated_summary : option string;
  edited_summary : option string;
  created_at : Z;
  updated_at : option Z
}.
End Transcript.

Module TranscriptCreate.
Record t : Type := Build {
  title : string;
  original_text : string;
  custom_prompt : option string
}.
End TranscriptCreate.

Module TranscriptUpdate.
Record t : Type := Build { edited_summary : string }.
End TranscriptUpdate.

Module EmailRequest.
Record t : Type := Build {
  recipients : list string;
  subject : option string
}.
End EmailRequest.

Module TranscriptResponse.
(** Unlike the stored document, [custom_prompt] is a plain [str]. *)
Record t : Type := Build {
  id : string;
  title : string;
  original_text : string;
  custom_prompt : string;
  generated_summary : option string;
  edited_summary : option string;
  created_at : Z;
  updated_at : option Z
}.
End TranscriptResponse.

Module FailedEmail.
Record t : Type := Build { email : string; error : string }.
End FailedEmail.

Module EmailLog.
(** A document of [db.email_logs].  The handler writes two shapes of
    dict: the fields a shape lacks are [None]. *)
Record t : Type := Build {
  id : string;
  transcript_id : string;
  recipients : list string;
  subject : option string;
  sent_at : Z;
  status : string;
  sent_count : option nat;
  failed_count : option nat;
  failed_emails : option (list FailedEmail.t);
  error : option string
}.
End EmailLog.

Module EmailResponse.
(** The dict that [send_email] returns; the key [failed_emails] exists
    only when some delivery failed. *)
Record t : Type := Build {
  message : string;
  recipients : list string;
  subject : option string;
  sent_emails : list string;
  failed_emails : option (list FailedEmail.t)
}.
End EmailResponse.

Module SmtpCall.
(** One call of [send_email_smtp]. *)
Record t : Type := Build {
  recipients : list string;
  subject : string;
  message_text : string
}.
End SmtpCall.

(** ** The world and its surroundings *)

Record World : Type := BuildWorld {
  transcripts : list Transcript.t;
  email_logs : list EmailLog.t;
  smtp_attempts : list SmtpCall.t;
  stdout : list string
}.

Record Env : Type := BuildEnv {
  uuid4 : string;
  utcnow : Z;
  str_of : Exception -> string;
  find_one_fault : option string;
  write_fault : option string;
  smtp_fault : nat -> list string -> option string
}.

(** ** A state and exception monad for the handlers *)

Inductive Outcome (A : Type) : Type :=
| Returned (a : A)
| Raised (e : Exception).
Arguments Returned {A} a.
Arguments Raised {A} e.

Definition M (A : Type) : Type := World -> Outcome A * World.

Definition ret {A} (a : A) : M A := fun w => (Returned a, w).

Definition raise {A} (e : Exception) : M A := fun w => (Raised e, w).

Definition bind {A B} (m : M A) (k : A -> M B) : M B :=
  fun w =>
    match m w with
    | (Returned a, w') => k a w'
    | (Raised e, w') => (Raised e, w')
    end.

(** [try: m except Exception as e: h e].  What [m] did to the world before
    it raised stays done. *)
Definition try_except {A} (m : M A) (h : Exception -> M A) : M A :=
  fun w =>
    match m w with
    | (Returned a, w') => (Returned a, w')
    | (Raised e, w') => h e w'
    end.

Notation "x <-- m ;; k" := (bind m (fun x => k))
  (at level 100, m at next level, right associativity).
Notation "m ;;; k" := (bind m (fun _ => k))
  (at level 100, right associativity).

Definition print (s : string) : M unit :=
  fun w => (Returned tt,
            BuildWorld (transcripts w) (email_logs w) (smtp_attempts w)
                       (stdout w ++ [s])).

(** ** Python values *)

(** Truth value of an [Optional[str]]: [None] and [""] are false. *)
Definition truthy (o : option string) : bool :=
  match o with
  | Some s => negb (String.eqb s "")
  | None => false
  end.

(** [a or b]. *)
Definition py_or (a b : option string) : option string :=
  if truthy a then a else b.

(** An [Optional[str]] inside an f-string. *)
Definition fmt (o : option string) : string :=
  match o with
  | Some s => s
  | None => "None"
  end.

Definition nl : string := String (Ascii.ascii_of_nat 10) EmptyString.

(** ** The collections *)

(** What the store keeps of a [datetime]: BSON dates are whole
    milliseconds, the driver drops the microseconds below. *)
Definition bson_datetime (t : Z) : Z := 1000 * (t / 1000).

(** A transcript as the store keeps it. *)
Definition stored_transcript (d : Transcript.t) : Transcript.t :=
  Transcript.Build
    (Transcript.id d) (Transcript.title d) (Transcript.original_text d)
    (Transcript.custom_prompt d) (Transcript.generated_summary d)
    (Transcript.edited_summary d)
    (bson_datetime (Transcript.created_at d))
    (option_map bson_datetime (Transcript.updated_at d)).

(** An email record as the store keeps it. *)
Definition stored_log (l : EmailLog.t) : EmailLog.t :=
  EmailLog.Build
    (EmailLog.id l) (EmailLog.transcript_id l) (EmailLog.recipients l)
    (EmailLog.subject l) (bson_datetime (EmailLog.sent_at l))
    (EmailLog.status l) (EmailLog.sent_count l) (EmailLog.failed_count l)
    (EmailLog.failed_emails l) (EmailLog.error l).

Definition has_id (tid : string) (d : Transcript.t) : bool :=
  String.eqb (Transcript.id d) tid.

Definition find_one (env : Env) (tid : string) : M (option Transcript.t) :=
  fun w =>
    match find_one_fault env with
    | Some m => (Raised (DriverError m), w)
    | None => (Returned (List.find (has_id tid) (transcripts w)), w)
    end.

(** [db.transcripts] carries the unique index on [id] that
    [create_indexes] builds. *)
Definition insert_one_transcript (env : Env) (doc : Transcript.t) : M unit :=
  fun w =>
    match write_fault env with
    | Some m => (Raised (DriverError m), w)
    | None =>
        if existsb (has_id (Transcript.id doc)) (transcripts w)
        then (Raised (DuplicateKeyError (Transcript.id doc)), w)
        else (Returned tt,
              BuildWorld (transcripts w ++ [stored_transcript doc])
                         (email_logs w)
                         (smtp_attempts w) (stdout w))
    end.

(** [$set] on the first document that matches. *)
Fixpoint set_first (tid : string) (f : Transcript.t -> Transcript.t)
    (ds : list Transcript.t) : list Transcript.t :=
  match ds with
  | [] => []
  | d :: ds' => if has_id tid d then f d :: ds' else d :: set_first tid f ds'
  end.

Definition update_one (env : Env) (tid : string)
    (f : Transcript.t -> Transcript.t) : M unit :=
  fun w =>
    match write_fault env with
    | Some m => (Raised (DriverError m), w)
    | None => (Returned tt,
               BuildWorld (set_first tid f (transcripts w)) (email_logs w)
                          (smtp_attempts w) (stdout w))
    end.

Fixpoint remove_first (tid : string) (ds : list Transcript.t)
    : list Transcript.t :=
  match ds with
  | [] => []
  | d :: ds' => if has_id tid d then ds' else d :: remove_first tid ds'
  end.

(** Returns [deleted_count]. *)
Definition delete_one (env : Env) (tid : string) : M nat :=
  fun w =>
    match write_fault env with
    | Some m => (Raised (DriverError m), w)
    | None =>
        (Returned (if existsb (has_id tid) (transcripts w) then 1%nat else 0%nat),
         BuildWorld (remove_first tid (transcripts w)) (email_logs w)
                    (smtp_attempts w) (stdout w))
    end.

Definition insert_one_log (env : Env) (log : EmailLog.t) : M unit :=
  fun w =>
    match write_fault env with
    | Some m => (Raised (DriverError m), w)
    | None => (Returned tt,
               BuildWorld (transcripts w)
                          (email_logs w ++ [stored_log log])
                          (smtp_attempts w) (stdout w))
    end.

(** ** Helpers of the module *)

(** [TranscriptResponse] built from a document: pydantic rejects a document whose
    [custom_prompt] is [None], the other fields always have their type. *)
Definition TranscriptResponse_of (d : Transcript.t) : M TranscriptResponse.t :=
  match Transcript.custom_prompt d with
  | Some p =>
      ret (TranscriptResponse.Build
             (Transcript.id d) (Transcript.title d) (Transcript.original_text d)
             p (Transcript.generated_summary d) (Transcript.edited_summary d)
             (Transcript.created_at d) (Transcript.updated_at d))
  | None => raise (ValidationError "custom_prompt")
  end.

(** [send_email_smtp]: one SMTP session per call.  Whatever goes wrong in
    the session is raised again as an [HTTPException] with status 500. *)
Definition send_email_smtp (env : Env) (recipients : list string)
    (subject message_text : string) : M bool :=
  fun w =>
    let w' := BuildWorld (transcripts w) (email_logs w)
                (smtp_attempts w ++ [SmtpCall.Build recipients subject message_text])
                (stdout w) in
    match smtp_fault env (length (smtp_attempts w)) recipients with
    | None => (Returned true, w')
    | Some m =>
        (Raised (HTTPException 500
                   ("Failed to send email via SMTP: " +:+ str_of env (DriverError m))),
         w')
    end.

(** ** The handlers *)

Definition create_transcript (env : Env) (transcript : TranscriptCreate.t)
    : M TranscriptResponse.t :=
  let transcript_id := uuid4 env in
  let now := utcnow env in
  let transcript_doc :=
    Transcript.Build transcript_id
      (TranscriptCreate.title transcript)
      (TranscriptCreate.original_text transcript)
      (TranscriptCreate.custom_prompt transcript)
      None None now None in
  try_except
    (insert_one_transcript env transcript_doc ;;;
     TranscriptResponse_of transcript_doc)
    (fun e =>
       print ("Error creating transcript: " +:+ str_of env e) ;;;
       raise (HTTPException 500 ("Database error: " +:+ str_of env e))).

Definition get_transcript (env : Env) (transcript_id : string)
    : M TranscriptResponse.t :=
  try_except
    (transcript <-- find_one env transcript_id ;;
     match transcript with
     | None => raise (HTTPException 404 "Transcript not found")
     | Some d => TranscriptResponse_of d
     end)
    (fun e =>
       print ("Error fetching transcript " +:+ transcript_id +:+ ": "
              +:+ str_of env e) ;;;
       raise (HTTPException 500 ("Database error: " +:+ str_of env e))).

(** The [$set] of [update_summary], as the store applies it. *)
Definition set_edited_summary (s : string) (now : Z) (d : Transcript.t)
    : Transcript.t :=
  Transcript.Build
    (Transcript.id d) (Transcript.title d) (Transcript.original_text d)
    (Transcript.custom_prompt d) (Transcript.generated_summary d)
    (Some s) (Transcript.created_at d) (Some (bson_datetime now)).

Definition update_summary (env : Env) (transcript_id : string)
    (update : TranscriptUpdate.t) : M string :=
  try_except
    (transcript <-- find_one env transcript_id ;;
     match transcript with
     | None => raise (HTTPException 404 "Transcript not found")
     | Some _ =>
         try_except
           (update_one env transcript_id
              (set_edited_summary (TranscriptUpdate.edited_summary update)
                                  (utcnow env)) ;;;
            ret "Summary updated successfully")
           (fun db_error =>
              print ("Error updating summary: " +:+ str_of env db_error) ;;;
              raise (HTTPException 500
                       ("Database error: " +:+ str_of env db_error)))
     end)
    (fun db_error =>
       print ("Error fetching transcript " +:+ transcript_id +:+ ": "
              +:+ str_of env db_error) ;;;
       raise (HTTPException 500 ("Database error: " +:+ str_of env db_error))).

(** The f-string of [send_email] after [.strip()]: the template starts
    with a newline and ends with a newline and spaces, which is all that
    [strip] removes, the text between starting with [M] and ending with [r]. *)
Definition email_body (title summary_to_send : string) : string :=
  "Meeting Summary: " +:+ title +:+ nl +:+ nl
  +:+ summary_to_send +:+ nl +:+ nl
  +:+ "---" +:+ nl
  +:+ "This summary was generated by AI Meeting Notes Summarizer".

(** The [for recipient in email_request.recipients] loop, with the two
    lists it appends to. *)
Fixpoint deliver (env : Env) (subject body : string) (rs : list string)
    (sent_emails : list string) (failed_emails : list FailedEmail.t)
    : M (list string * list FailedEmail.t) :=
  match rs with
  | [] => ret (sent_emails, failed_emails)
  | recipient :: rs' =>
      acc <-- try_except
                (send_email_smtp env [recipient] subject body ;;;
                 ret (sent_emails ++ [recipient], failed_emails))
                (fun e =>
                   ret (sent_emails,
                        failed_emails
                          ++ [FailedEmail.Build recipient (str_of env e)])) ;;
      deliver env subject body rs' (fst acc) (snd acc)
  end.

Definition is_nil {A} (l : list A) : bool :=
  match l with
  | [] => true
  | _ => false
  end.

Definition send_email (env : Env) (transcript_id : string)
    (email_request : EmailRequest.t) : M EmailResponse.t :=
  try_except
    (transcript <-- find_one env transcript_id ;;
     match transcript with
     | None => raise (HTTPException 404 "Transcript not found")
     | Some t =>
         let summary_to_send :=
           py_or (Transcript.edited_summary t)
                 (Transcript.generated_summary t) in
         if negb (truthy summary_to_send)
         then raise (HTTPException 400 "No summary available to send")
         else
           let body := email_body (Transcript.title t) (fmt summary_to_send) in
           let subject :=
             fmt (py_or (EmailRequest.subject email_request)
                        (Some ("Meeting Summary: " +:+ Transcript.title t))) in
           acc <-- deliver env subject body
                     (EmailRequest.recipients email_request) [] [] ;;
           let sent_emails := fst acc in
           let failed_emails := snd acc in
           let email_log :=
             EmailLog.Build (uuid4 env) transcript_id
               (EmailRequest.recipients email_request)
               (EmailRequest.subject email_request)
               (utcnow env)
               (if is_nil failed_emails then "sent" else "partial")
               (Some (length sent_emails))
               (Some (length failed_emails))
               (Some failed_emails)
               None in
           try_except
             (insert_one_log env email_log)
             (fun log_error =>
                print ("Error logging email: " +:+ str_of env log_error)) ;;;
           if negb (is_nil failed_emails)
           then ret (EmailResponse.Build
                       ("Email sent to " +:+ pretty (length sent_emails)
                        +:+ " recipients, failed for "
                        +:+ pretty (length failed_emails))
                       (EmailRequest.recipients email_request)
                       (EmailRequest.subject email_request)
                       sent_emails (Some failed_emails))
           else ret (EmailResponse.Build
                       ("Email sent successfully to "
                        +:+ pretty (length sent_emails) +:+ " recipients")
                       (EmailRequest.recipients email_request)
                       (EmailRequest.subject email_request)
                       sent_emails None)
     end)
    (fun e =>
       print ("Error in send_email: " +:+ str_of env e) ;;;
       if is_HTTPException e then raise e
       else
         try_except
           (let email_log :=
              EmailLog.Build (uuid4 env) transcript_id
                (EmailRequest.recipients email_request)
                (EmailRequest.subject email_request)
                (utcnow env) "failed" None None None
                (Some (str_of env e)) in
            try_except
              (insert_one_log env email_log)
              (fun log_error =>
                 print ("Error logging email failure: "
                        +:+ str_of env log_error)))
           (fun log_error =>
              print ("Error creating log entry: " +:+ str_of env log_error)) ;;;
         raise (HTTPException 500 ("Failed to send email: " +:+ str_of env e))).

Definition delete_transcript (env : Env) (transcript_id : string) : M string :=
  result <-- delete_one env transcript_id ;;
  if Nat.eqb result 0
  then raise (HTTPException 404 "Transcript not found")
  else ret "Transcript deleted successfully".

(** ** Concrete worlds used by the examples *)

(** Surroundings with a fixed uuid and clock reading; [str] renders an
    [HTTPException] as its status code, a colon and its detail. *)
Definition quiet (find_fault write_fault : option string)
    (smtp : nat -> list string -> option string) : Env :=
  BuildEnv "uuid-1" 2000
    (fun e =>
       match e with
       | HTTPException c d => pretty c +:+ ": " +:+ d
       | ValidationError f => "validation error: " +:+ f
       | DuplicateKeyError k => "duplicate key: " +:+ k
       | DriverError m => m
       end)
    find_fault write_fault smtp.

Definition smtp_ok : nat -> list string -> option string := fun _ _ => None.

(** The relay refuses every call made for [b@x.com]. *)
Definition smtp_no_b : nat -> list string -> option string :=
  fun _ rs => if bool_decide (rs = ["b@x.com"]) then Some "refused" else None.

Definition doc_a : Transcript.t :=
  Transcript.Build "a" "Standup" "we met" (Some "Summarize")
    (Some "generated") None 1000 None.

Definition doc_none : Transcript.t :=
  Transcript.Build "n" "Retro" "we talked" (Some "Summarize")
    None None 1000 None.

Definition log_a : EmailLog.t :=
  EmailLog.Build "log-0" "a" ["a@x.com"] (Some "Meeting Summary") 1500
    "sent" (Some 1%nat) (Some 0%nat) (Some []) None.

Definition world_a : World := BuildWorld [doc_a; doc_none] [log_a] [] [].

Definition req_ab : EmailRequest.t :=
  EmailRequest.Build ["a@x.com"; "b@x.com"] (Some "Meeting Summary").

(** ** What the delivery loop computes *)

(** The recipients whose call succeeds, when the first call of the loop is
    the [k]-th call made to the relay. *)
Fixpoint sent_of (env : Env) (k : nat) (rs : list string) : list string :=
  match rs with
  | [] => []
  | r :: rs' =>
      match smtp_fault env k [r] with
      | None => r :: sent_of env (S k) rs'
      | Some _ => sent_of env (S k) rs'
      end
  end.

(** The recipients whose call fails, with the text recorded for each. *)
Fixpoint failed_of (env : Env) (k : nat) (rs : list string)
    : list FailedEmail.t :=
  match rs with
  | [] => []
  | r :: rs' =>
      match smtp_fault env k [r] with
      | None => failed_of env (S k) rs'
      | Some m =>
          FailedEmail.Build r
            (str_of env
               (HTTPException 500
                  ("Failed to send email via SMTP: "
                   +:+ str_of env (DriverError m))))
          :: failed_of env (S k) rs'
      end
  end.

(** The [k]-th recipient's call succeeds, respectively fails, when the
    loop starts after [base] earlier calls. *)
Definition succeeds_at (env : Env) (base : nat) (rs : list string) (k : nat)
    : Prop :=
  exists r, rs !! k = Some r /\ smtp_fault env (base + k) [r] = None.

Definition fails_at (env : Env) (base : nat) (rs : list string) (k : nat)
    : Prop :=
  exists r m, rs !! k = Some r /\ smtp_fault env (base + k) [r] = Some m.

(** The record and the answer of a request that reached the loop. *)
Definition delivery_log (env : Env) (transcript_id : string)
    (req : EmailRequest.t) (sent : list string) (failed : list FailedEmail.t)
    : EmailLog.t :=
  EmailLog.Build (uuid4 env) transcript_id
    (EmailRequest.recipients req) (EmailRequest.subject req)
    (bson_datetime (utcnow env))
    (if is_nil failed then "sent" else "partial")
    (Some (length sent)) (Some (length failed)) (Some failed) None.

Definition delivery_response (req : EmailRequest.t) (sent : list string)
    (failed : list FailedEmail.t) : EmailResponse.t :=
  if negb (is_nil failed)
  then EmailResponse.Build
         ("Email sent to " +:+ pretty (length sent)
          +:+ " recipients, failed for " +:+ pretty (length failed))
         (EmailRequest.recipients req) (EmailRequest.subject req)
         sent (Some failed)
  else EmailResponse.Build
         ("Email sent successfully to " +:+ pretty (length sent)
          +:+ " recipients")
         (EmailRequest.recipients req) (EmailRequest.subject req)
         sent None.

Definition failure_log (env : Env) (transcript_id : string)
    (req : EmailRequest.t) (e : Exception) : EmailLog.t :=
  EmailLog.Build (uuid4 env) transcript_id
    (EmailRequest.recipients req) (EmailRequest.subject req)
    (bson_datetime (utcnow env))
    "failed" None None None (Some (str_of env e)).

Definition subject_used (req : EmailRequest.t) (t : Transcript.t) : string :=
  fmt (py_or (EmailRequest.subject req)
             (Some ("Meeting Summary: " +:+ Transcript.title t))).

Definition summary_of (t : Transcript.t) : option string :=
  py_or (Transcript.edited_summary t) (Transcript.generated_summary t).

Definition calls_for (req : EmailRequest.t) (t : Transcript.t)
    : list SmtpCall.t :=
  map (fun r => SmtpCall.Build [r] (subject_used req t)
                  (email_body (Transcript.title t) (fmt (summary_of t))))
      (EmailRequest.recipients req).

(** The failed addresses of a response, [[]] when the key is absent. *)
Definition failed_addresses (resp : EmailResponse.t) : list string :=
  map FailedEmail.email (default [] (EmailResponse.failed_emails resp)).

(** The statuses of the data model. *)
Definition known_status (l : EmailLog.t) : Prop :=
  EmailLog.status l = "sent" \/ EmailLog.status l = "partial"
  \/ EmailLog.status l = "failed".

(** The counts of a record with status ["sent"] or ["partial"]. *)
Definition counts_add_up (l : EmailLog.t) : Prop :=
  EmailLog.status l = "sent" \/ EmailLog.status l = "partial" ->
  exists a b,
    EmailLog.sent_count l = Some a /\ EmailLog.failed_count l = Some b
    /\ (a + b = length (EmailLog.recipients l))%nat.

(** The same surroundings, with another answer of the driver to writes. *)
Definition with_write_fault (env : Env) (f : option string) : Env :=
  BuildEnv (uuid4 env) (utcnow env) (str_of env) (find_one_fault env) f
           (smtp_fault env).

Definition req_abc : EmailRequest.t :=
  EmailRequest.Build ["c@x.com"; "b@x.com"; "a@x.com"; "b@x.com"] None.

Definition create_req : TranscriptCreate.t :=
  TranscriptCreate.Build "Planning" "we planned" (Some "Summarize").

Definition doc_blank : Transcript.t :=
  Transcript.Build "b" "Sync" "we synced" (Some "Summarize")
    (Some "") (Some "") 1000 None.

Definition doc_half : Transcript.t :=
  Transcript.Build "h" "Sync" "we synced" (Some "Summarize")
    (Some "generated") (Some "") 1000 None.

Definition world_b : World := BuildWorld [doc_blank; doc_half] [] [] [].

(** ** The summarization handler *)

(** What the generation API does with a prompt: it answers with a text, or
    the call raises. *)
Inductive GeminiAnswer : Type :=
| GeminiText (text : string)
| GeminiError (msg : string).

(** The f-string that [generate_summary_with_gemini] sends. *)
Definition full_prompt (text : string) (prompt : option string) : string :=
  "Please follow this instruction: '" +:+ fmt prompt +:+ "'" +:+ nl +:+ nl
  +:+ "Here is the meeting transcript to summarize:" +:+ nl +:+ nl +:+ text.

(** [generate_summary_with_gemini]: the answer's text verbatim; whatever
    is raised on the way is raised again as an [HTTPException] with status
    500.  The prompt is the document's [custom_prompt], which may be
    [None]. *)
Definition generate_summary_with_gemini (env : Env)
    (gemini : string -> GeminiAnswer) (text : string) (prompt : option string)
    : M string :=
  try_except
    (match gemini (full_prompt text prompt) with
     | GeminiText response_text => ret response_text
     | GeminiError m => raise (DriverError m)
     end)
    (fun e =>
       raise (HTTPException 500
                ("Error generating summary: " +:+ str_of env e))).

Definition set_generated_summary (s : string) (now : Z) (d : Transcript.t)
    : Transcript.t :=
  Transcript.Build
    (Transcript.id d) (Transcript.title d) (Transcript.original_text d)
    (Transcript.custom_prompt d) (Some s)
    (Transcript.edited_summary d) (Transcript.created_at d)
    (Some (bson_datetime now)).

(** [generate_summary]; the returned string is the value of the key
    [summary] of the dict. *)
Definition generate_summary (env : Env) (gemini : string -> GeminiAnswer)
    (transcript_id : string) : M string :=
  try_except
    (transcript <-- find_one env transcript_id ;;
     match transcript with
     | None => raise (HTTPException 404 "Transcript not found")
     | Some t =>
         try_except
           (summary <-- generate_summary_with_gemini env gemini
                          (Transcript.original_text t)
                          (Transcript.custom_prompt t) ;;
            try_except
              (update_one env transcript_id
                 (set_generated_summary summary (utcnow env)) ;;;
               ret summary)
              (fun db_error =>
                 print ("Error updating transcript with summary: "
                        +:+ str_of env db_error) ;;;
                 raise (HTTPException 500
                          ("Database error: " +:+ str_of env db_error))))
           (fun e =>
              raise (HTTPException 500
                       ("Error generating summary: " +:+ str_of env e)))
     end)
    (fun db_error =>
       print ("Error fetching transcript " +:+ transcript_id +:+ ": "
              +:+ str_of env db_error) ;;;
       raise (HTTPException 500 ("Database error: " +:+ str_of env db_error))).

(** ** The listing handler *)

(** The cursor of [db.transcripts.find().sort("created_at", -1)]: the
    driver fails, or yields the documents in the order it sorts them. *)
Record Cursor : Type := BuildCursor {
  cursor_fault : option string;
  cursor_order : list Transcript.t -> list Transcript.t
}.

Definition find_sorted (c : Cursor) : M (list Transcript.t) :=
  fun w =>
    match cursor_fault c with
    | Some m => (Raised (DriverError m), w)
    | None => (Returned (cursor_order c (transcripts w)), w)
    end.

(** The [async for] loop, with the list it appends to. *)
Fixpoint collect (docs : list Transcript.t)
    (acc : list TranscriptResponse.t) : M (list TranscriptResponse.t) :=
  match docs with
  | [] => ret acc
  | doc :: docs' =>
      r <-- TranscriptResponse_of doc ;;
      collect docs' (acc ++ [r])
  end.

Definition get_transcripts (env : Env) (c : Cursor)
    : M (list TranscriptResponse.t) :=
  try_except
    (docs <-- find_sorted c ;;
     collect docs [])
    (fun e =>
       print ("Error fetching transcripts: " +:+ str_of env e) ;;;
       raise (HTTPException 500 ("Database error: " +:+ str_of env e))).

(** ** Notions used in the statements about the handlers *)

(** The two collections of a world are those of another. *)
Definition same_store (w w' : World) : Prop :=
  transcripts w' = transcripts w /\ email_logs w' = email_logs w.

Definition unique_ids (w : World) : Prop :=
  NoDup (map Transcript.id (transcripts w)).

(** A response carries the fields of a document. *)
Definition response_matches (r : TranscriptResponse.t) (d : Transcript.t)
    : Prop :=
  TranscriptResponse.id r = Transcript.id d
  /\ TranscriptResponse.title r = Transcript.title d
  /\ TranscriptResponse.original_text r = Transcript.original_text d
  /\ Some (TranscriptResponse.custom_prompt r) = Transcript.custom_prompt d
  /\ TranscriptResponse.generated_summary r = Transcript.generated_summary d
  /\ TranscriptResponse.edited_summary r = Transcript.edited_summary d
  /\ TranscriptResponse.created_at r = Transcript.created_at d
  /\ TranscriptResponse.updated_at r = Transcript.updated_at d.

(** Whatever is raised is reported with status 500. *)
Definition raises_only_500 {A} (o : Outcome A) : Prop :=
  match o with
  | Returned _ => True
  | Raised e => status_of e = 500
  end.

(** ** More sample data *)

Definition smtp_down : nat -> list string -> option string :=
  fun _ _ => Some "connection refused".

Definition gemini_echo : string -> GeminiAnswer :=
  fun p => GeminiText ("summary of: " +:+ p).

Definition gemini_down : string -> GeminiAnswer :=
  fun _ => GeminiError "quota exceeded".

Definition gemini_blank : string -> GeminiAnswer :=
  fun _ => GeminiText "".

Definition doc_old : Transcript.t :=
  Transcript.Build "o" "Kickoff" "we started" (Some "Summarize")
    None None 500 None.

Definition doc_new : Transcript.t :=
  Transcript.Build "w" "Review" "we reviewed" (Some "Summarize")
    (Some "generated") (Some "edited") 3000 (Some 3500).

Definition doc_null : Transcript.t :=
  Transcript.Build "x" "Broken" "text" None None None 700 None.

Definition world_c : World := BuildWorld [doc_old; doc_new] [log_a] [] [].

Definition world_null : World :=
  BuildWorld [doc_old; doc_null; doc_new] [] [] [].

Fixpoint insert_desc (d : Transcript.t) (ds : list Transcript.t)
    : list Transcript.t :=
  match ds with
  | [] => [d]
  | x :: xs =>
      if Transcript.created_at x <? Transcript.created_at d
      then d :: x :: xs
      else x :: insert_desc d xs
  end.

(** A cursor that answers and sorts by insertion. *)
Definition cursor_ok : Cursor := BuildCursor None (foldr insert_desc []).

(** Surroundings whose uuid is the id of a stored document. *)
Definition create_clash_env : Env :=
  BuildEnv "a" 2000 (str_of (quiet None None smtp_ok)) None None smtp_ok.

(** Surroundings whose clock reads 1500. *)
Definition env_1500 : Env :=
  BuildEnv "uuid-1" 1500 (str_of (quiet None None smtp_ok)) None None smtp_ok.

Definition create_null : TranscriptCreate.t :=
  TranscriptCreate.Build "Planning" "we planned" None.

Definition req_none : EmailRequest.t := EmailRequest.Build [] None.

Definition req_blank_subject : EmailRequest.t :=
  EmailRequest.Build ["a@x.com"] (Some "").

(** ** The loop *)

Section Loop.
Variable env : Env.

Lemma deliver_eq (subject body : string) (rs : list string) :
  forall sent failed w,
    deliver env subject body rs sent failed w =
    (Returned (sent ++ sent_of env (length (smtp_attempts w)) rs,
               failed ++ failed_of env (length (smtp_attempts w)) rs),
     BuildWorld (transcripts w) (email_logs w)
       (smtp_attempts w ++ map (fun r => SmtpCall.Build [r] subject body) rs)
       (stdout w)).
Proof.
  induction rs as [|r rs IH]; intros sent failed w.
  - destruct w; cbn. unfold ret. now rewrite !app_nil_r.
  - cbn [deliver sent_of failed_of map].
    unfold bind at 1. unfold try_except, bind, send_email_smtp, ret.
    destruct (smtp_fault env (length (smtp_attempts w)) [r]) as [m|];
      cbn [fst snd]; rewrite IH; cbn [smtp_attempts transcripts email_logs stdout];
      rewrite length_app; cbn [length];
      replace (length (smtp_attempts w) + 1)%nat with (S (length (smtp_attempts w))) by lia;
      rewrite <- !app_assoc; reflexivity.
Qed.

Lemma sent_failed_length (rs : list string) :
  forall k, (length (sent_of env k rs) + length (failed_of env k rs)
             = length rs)%nat.
Proof.
  induction rs as [|r rs IH]; intros k; cbn; [reflexivity|].
  destruct (smtp_fault env k [r]); cbn; rewrite <- (IH (S k)); lia.
Qed.

Lemma sent_of_sublist (rs : list string) :
  forall k, sublist (sent_of env k rs) rs.
Proof.
  induction rs as [|r rs IH]; intros k; cbn; [constructor|].
  destruct (smtp_fault env k [r]); constructor; apply IH.
Qed.

Lemma failed_of_sublist (rs : list string) :
  forall k, sublist (map FailedEmail.email (failed_of env k rs)) rs.
Proof.
  induction rs as [|r rs IH]; intros k; cbn; [constructor|].
  destruct (smtp_fault env k [r]); cbn; constructor; apply IH.
Qed.

Lemma sent_failed_perm (rs : list string) :
  forall k, sent_of env k rs ++ map FailedEmail.email (failed_of env k rs)
            ≡ₚ rs.
Proof.
  induction rs as [|r rs IH]; intros k; cbn; [reflexivity|].
  destruct (smtp_fault env k [r]); cbn.
  - rewrite <- Permutation_middle. now rewrite IH.
  - now rewrite IH.
Qed.

Lemma failed_of_nil (rs : list string) :
  forall k, failed_of env k rs = [] <->
            (forall i, i < length rs -> succeeds_at env k rs i)%nat.
Proof.
  induction rs as [|r rs IH]; intros k; cbn.
  - split; [intros _ i Hi; lia | reflexivity].
  - destruct (smtp_fault env k [r]) as [m|] eqn:E; split.
    + discriminate.
    + intros H. destruct (H 0%nat ltac:(lia)) as (r' & Hr & Hf).
      cbn in Hr. injection Hr as <-.
      rewrite Nat.add_0_r in Hf. congruence.
    + intros H [|i] Hi.
      * exists r. rewrite Nat.add_0_r. now split.
      * destruct (proj1 (IH (S k)) H i ltac:(lia)) as (r' & Hr & Hf).
        exists r'. split; [exact Hr|].
        now replace (k + S i)%nat with (S k + i)%nat by lia.
    + intros H. apply IH. intros i Hi.
      destruct (H (S i) ltac:(lia)) as (r' & Hr & Hf).
      exists r'. split; [exact Hr|].
      now replace (S k + i)%nat with (k + S i)%nat by lia.
Qed.

Lemma failed_of_cons (rs : list string) :
  forall k i, fails_at env k rs i -> failed_of env k rs <> [].
Proof.
  intros k i (r & m & Hr & Hf) Hnil.
  pose proof (lookup_lt_Some _ _ _ Hr) as Hlt.
  destruct (proj1 (failed_of_nil rs k) Hnil i Hlt) as (r' & Hr' & Hf').
  congruence.
Qed.
End Loop.

(** ** The four ways through [send_email] *)

Section SendEmailPaths.
Variables (env : Env) (tid : string) (req : EmailRequest.t) (w : World).

(** The driver fails on the lookup: a [failed] record is attempted. *)
Lemma send_email_lookup_fault (m : string) :
  find_one_fault env = Some m ->
  send_email env tid req w =
  (Raised (HTTPException 500
             ("Failed to send email: " +:+ str_of env (DriverError m))),
   BuildWorld (transcripts w)
     (match write_fault env with
      | None => email_logs w ++ [failure_log env tid req (DriverError m)]
      | Some _ => email_logs w
      end)
     (smtp_attempts w)
     (match write_fault env with
      | None =>
          stdout w ++ ["Error in send_email: " +:+ str_of env (DriverError m)]
      | Some m' =>
          (stdout w ++ ["Error in send_email: " +:+ str_of env (DriverError m)])
          ++ ["Error logging email failure: "
              +:+ str_of env (DriverError m')]
      end)).
Proof.
  intros Hf.
  unfold send_email, try_except, bind, find_one, print, raise, insert_one_log.
  rewrite Hf. cbn.
  destruct (write_fault env); reflexivity.
Qed.

(** No document has the id. *)
Lemma send_email_not_found :
  find_one_fault env = None ->
  List.find (has_id tid) (transcripts w) = None ->
  send_email env tid req w =
  (Raised (HTTPException 404 "Transcript not found"),
   BuildWorld (transcripts w) (email_logs w) (smtp_attempts w)
     (stdout w
      ++ ["Error in send_email: "
          +:+ str_of env (HTTPException 404 "Transcript not found")])).
Proof.
  intros Hf Hn.
  unfold send_email, try_except, bind, find_one, print, raise.
  rewrite Hf, Hn. reflexivity.
Qed.

(** The document has no summary to send. *)
Lemma send_email_no_summary (t : Transcript.t) :
  find_one_fault env = None ->
  List.find (has_id tid) (transcripts w) = Some t ->
  truthy (summary_of t) = false ->
  send_email env tid req w =
  (Raised (HTTPException 400 "No summary available to send"),
   BuildWorld (transcripts w) (email_logs w) (smtp_attempts w)
     (stdout w
      ++ ["Error in send_email: "
          +:+ str_of env (HTTPException 400 "No summary available to send")])).
Proof.
  intros Hf Hs Ht. unfold summary_of in Ht.
  unfold send_email, try_except, bind, find_one, print, raise.
  rewrite Hf, Hs. cbn zeta. rewrite Ht. reflexivity.
Qed.

(** The loop is reached. *)
Lemma send_email_delivered (t : Transcript.t) :
  find_one_fault env = None ->
  List.find (has_id tid) (transcripts w) = Some t ->
  truthy (summary_of t) = true ->
  let base := length (smtp_attempts w) in
  let sent := sent_of env base (EmailRequest.recipients req) in
  let failed := failed_of env base (EmailRequest.recipients req) in
  send_email env tid req w =
  (Returned (delivery_response req sent failed),
   BuildWorld (transcripts w)
     (match write_fault env with
      | None => email_logs w ++ [delivery_log env tid req sent failed]
      | Some _ => email_logs w
      end)
     (smtp_attempts w ++ calls_for req t)
     (match write_fault env with
      | None => stdout w
      | Some m =>
          stdout w ++ ["Error logging email: " +:+ str_of env (DriverError m)]
      end)).
Proof.
  intros Hf Hs Ht base sent failed. unfold summary_of in Ht.
  unfold send_email, try_except at 1, bind at 1, find_one.
  rewrite Hf, Hs. cbn zeta. rewrite Ht. cbn [negb].
  unfold bind at 1. rewrite deliver_eq. cbn [fst snd app].
  fold base. fold sent. fold failed.
  unfold bind, try_except, insert_one_log, print, ret, delivery_response,
    delivery_log, calls_for, subject_used, summary_of.
  cbn [transcripts email_logs smtp_attempts stdout].
  destruct (write_fault env); destruct (is_nil failed); reflexivity.
Qed.
End SendEmailPaths.

(** ** Status of the audit record *)

(** Whatever the surroundings do, one request adds at most one record. *)
Lemma send_email_logs (env : Env) (tid : string) (req : EmailRequest.t)
    (w : World) :
  let w' := snd (send_email env tid req w) in
  (email_logs w' = email_logs w /\
   (write_fault env <> None \/ exists c d,
       fst (send_email env tid req w) = Raised (HTTPException c d)
       /\ (c = 404 \/ c = 400) /\ smtp_attempts w' = smtp_attempts w))
  \/ (exists e,
        email_logs w' = email_logs w ++ [failure_log env tid req e]
        /\ smtp_attempts w' = smtp_attempts w
        /\ find_one_fault env <> None)
  \/ (exists t,
        List.find (has_id tid) (transcripts w) = Some t
        /\ truthy (summary_of t) = true
        /\ email_logs w' =
           email_logs w
           ++ [delivery_log env tid req
                 (sent_of env (length (smtp_attempts w))
                    (EmailRequest.recipients req))
                 (failed_of env (length (smtp_attempts w))
                    (EmailRequest.recipients req))]).
Proof.
  destruct (find_one_fault env) as [m|] eqn:Hf.
  - rewrite (send_email_lookup_fault env tid req w m Hf).
    destruct (write_fault env) eqn:Hw; cbn.
    + left. split; [reflexivity|]. left. discriminate.
    + right. left. exists (DriverError m). repeat split. discriminate.
  - destruct (List.find (has_id tid) (transcripts w)) as [t|] eqn:Hs.
    + destruct (truthy (summary_of t)) eqn:Ht.
      * rewrite (send_email_delivered env tid req w t Hf Hs Ht).
        destruct (write_fault env) eqn:Hw; cbn.
        -- left. split; [reflexivity|]. left. discriminate.
        -- right. right. exists t. repeat split. exact Ht.
      * rewrite (send_email_no_summary env tid req w t Hf Hs Ht). cbn.
        left. split; [reflexivity|]. right. exists 400, "No summary available to send".
        repeat split. now right.
    + rewrite (send_email_not_found env tid req w Hf Hs). cbn.
      left. split; [reflexivity|]. right. exists 404, "Transcript not found".
      repeat split. now left.
Qed.

(** C1. When [send_email] reaches its delivery loop and the record is
    stored, the status of that record is ["sent"] if every recipient's
    delivery succeeded and ["partial"] if some succeeded and some failed;
    it is never ["failed"] there, whatever the per-recipient outcomes.  A
    record with status ["failed"] is written only when no delivery was
    attempted at all, and no request writes a status other than these
    three. *)
Theorem send_email_status_classification (env : Env) (tid : string)
    (req : EmailRequest.t) (w : World) :
  let w' := snd (send_email env tid req w) in
  let base := length (smtp_attempts w) in
  let rs := EmailRequest.recipients req in
  (exists new,
      email_logs w' = email_logs w ++ new
      /\ Forall known_status new
      /\ Forall (fun l => EmailLog.status l = "failed" ->
                          smtp_attempts w' = smtp_attempts w) new)
  /\ (forall t,
        find_one_fault env = None ->
        write_fault env = None ->
        List.find (has_id tid) (transcripts w) = Some t ->
        truthy (summary_of t) = true ->
        exists log,
          email_logs w' = email_logs w ++ [log]
          /\ ((forall i, (i < length rs)%nat -> succeeds_at env base rs i) ->
              EmailLog.status log = "sent")
          /\ (forall i j, succeeds_at env base rs i -> fails_at env base rs j ->
              EmailLog.status log = "partial")
          /\ ((exists j, fails_at env base rs j) ->
              EmailLog.status log = "partial")
          /\ EmailLog.status log <> "failed").
Proof.
  cbv zeta. split.
  - destruct (send_email_logs env tid req w) as [[H _]|[(e & H & Hs & _)|(t & _ & _ & H)]].
    + exists []. rewrite app_nil_r. repeat split; [exact H| |]; constructor.
    + exists [failure_log env tid req e]. split; [exact H|].
      split; apply Forall_singleton.
      * right. right. reflexivity.
      * intros _. exact Hs.
    + eexists. split; [exact H|].
      split; apply Forall_singleton; unfold known_status, delivery_log; cbn;
        destruct (is_nil _); intuition discriminate.
  - intros t Hf Hw Hs Ht.
    rewrite (send_email_delivered env tid req w t Hf Hs Ht), Hw. cbn.
    eexists. split; [reflexivity|]. cbn.
    assert (Hfail : (exists j, fails_at env (length (smtp_attempts w))
                                 (EmailRequest.recipients req) j) ->
                    (if is_nil (failed_of env (length (smtp_attempts w))
                                  (EmailRequest.recipients req))
                     then "sent" else "partial") = "partial").
    { intros [j Hj]. apply failed_of_cons in Hj.
      destruct (failed_of _ _ _); [congruence|reflexivity]. }
    repeat split.
    + intros Hall. apply failed_of_nil in Hall. now rewrite Hall.
    + intros i j _ Hj. apply Hfail. now exists j.
    + exact Hfail.
    + destruct (is_nil _); discriminate.
Qed.

Lemma send_email_status_classification_witness :
  exists log,
    email_logs (snd (send_email (quiet None None smtp_no_b) "a" req_ab world_a))
    = email_logs world_a ++ [log]
    /\ EmailLog.status log = "partial".
Proof.
  destruct (send_email_status_classification
              (quiet None None smtp_no_b) "a" req_ab world_a) as [_ H].
  destruct (H doc_a eq_refl eq_refl eq_refl eq_refl)
    as (log & Hl & _ & Hp & _).
  exists log. split; [exact Hl|].
  apply (Hp 0%nat 1%nat).
  - exists "a@x.com". split; reflexivity.
  - exists "b@x.com", "refused". split; reflexivity.
Defined.

(** ** A transcript without a summary *)

(** C2. On a transcript that is in the store and has neither an edited nor
    a generated summary, [send_email] raises the no-summary error, which is
    a bad-input response; the relay is not called, no record is added to
    [email_logs], and [transcripts] is as before. *)
Theorem send_email_without_summary (env : Env) (tid : string)
    (req : EmailRequest.t) (w : World) (t : Transcript.t) :
  find_one_fault env = None ->
  List.find (has_id tid) (transcripts w) = Some t ->
  Transcript.edited_summary t = None ->
  Transcript.generated_summary t = None ->
  exists w',
    send_email env tid req w
    = (Raised (HTTPException 400 "No summary available to send"), w')
    /\ category_of (HTTPException 400 "No summary available to send") = BadInput
    /\ smtp_attempts w' = smtp_attempts w
    /\ email_logs w' = email_logs w
    /\ transcripts w' = transcripts w.
Proof.
  intros Hf Hs He Hg.
  assert (Ht : truthy (summary_of t) = false).
  { unfold summary_of, py_or. rewrite He, Hg. reflexivity. }
  rewrite (send_email_no_summary env tid req w t Hf Hs Ht).
  eexists. split; [reflexivity|]. repeat split.
Qed.

Lemma send_email_without_summary_witness :
  exists w',
    send_email (quiet None None smtp_ok) "n" req_ab world_a
    = (Raised (HTTPException 400 "No summary available to send"), w')
    /\ category_of (HTTPException 400 "No summary available to send") = BadInput
    /\ smtp_attempts w' = smtp_attempts world_a
    /\ email_logs w' = email_logs world_a
    /\ transcripts w' = transcripts world_a.
Proof.
  apply (send_email_without_summary (quiet None None smtp_ok) "n" req_ab
           world_a doc_none); reflexivity.
Defined.

(** ** Fetching a transcript *)

(** The [HTTPException] that [get_transcript] raises for an unknown id is
    raised inside the handler's own [try], and [except Exception] takes
    it: the caller gets status 500. *)
Lemma get_transcript_unknown (env : Env) (tid : string) (w : World) :
  find_one_fault env = None ->
  List.find (has_id tid) (transcripts w) = None ->
  fst (get_transcript env tid w)
  = Raised (HTTPException 500
              ("Database error: "
               +:+ str_of env (HTTPException 404 "Transcript not found"))).
Proof.
  intros Hf Hn.
  unfold get_transcript, try_except, bind, find_one, raise, print.
  rewrite Hf, Hn. reflexivity.
Qed.

Lemma get_transcript_known (env : Env) (tid : string) (w : World)
    (d : Transcript.t) :
  find_one_fault env = None ->
  List.find (has_id tid) (transcripts w) = Some d ->
  get_transcript env tid w =
  match Transcript.custom_prompt d with
  | Some p =>
      (Returned
         (TranscriptResponse.Build
            (Transcript.id d) (Transcript.title d) (Transcript.original_text d)
            p (Transcript.generated_summary d) (Transcript.edited_summary d)
            (Transcript.created_at d) (Transcript.updated_at d)), w)
  | None =>
      (Raised (HTTPException 500
                 ("Database error: "
                  +:+ str_of env (ValidationError "custom_prompt"))),
       BuildWorld (transcripts w) (email_logs w) (smtp_attempts w)
         (stdout w
          ++ ["Error fetching transcript " +:+ tid +:+ ": "
              +:+ str_of env (ValidationError "custom_prompt")]))
  end.
Proof.
  intros Hf Hs.
  unfold get_transcript, try_except, bind, find_one, raise, print,
    TranscriptResponse_of.
  rewrite Hf, Hs. destruct (Transcript.custom_prompt d); reflexivity.
Qed.

(** Whatever [get_transcript] raises has status 500: no request to it is
    answered as not found. *)
Lemma get_transcript_raises_500 (env : Env) (tid : string) (w : World) :
  match fst (get_transcript env tid w) with
  | Returned _ => True
  | Raised e => status_of e = 500 /\ category_of e = ServerError
  end.
Proof.
  unfold get_transcript, try_except, bind, find_one, raise, print,
    TranscriptResponse_of, ret.
  destruct (find_one_fault env); [now cbn|].
  destruct (List.find (has_id tid) (transcripts w)) as [d|]; [|now cbn].
  destruct (Transcript.custom_prompt d); now cbn.
Qed.

(** C3. Fetching the id ["zz"], which the store does not hold, ends in a
    server-error response (status 500), not in a not-found response: the
    status 404 that the handler raises for it is the cause named in the
    detail of the error that reaches the caller. *)
Theorem get_transcript_unknown_is_server_error :
  List.find (has_id "zz") (transcripts world_a) = None
  /\ exists e w',
       get_transcript (quiet None None smtp_ok) "zz" world_a = (Raised e, w')
       /\ e = HTTPException 500
                ("Database error: "
                 +:+ str_of (quiet None None smtp_ok)
                       (HTTPException 404 "Transcript not found"))
       /\ status_of e = 500
       /\ category_of e = ServerError
       /\ category_of e <> NotFound.
Proof.
  split; [reflexivity|].
  eexists. eexists. split; [reflexivity|].
  split; [reflexivity|]. split; [reflexivity|].
  split; [reflexivity|]. discriminate.
Qed.

(** ** Every recipient is tried once *)

Lemma failed_addresses_delivery (req : EmailRequest.t) (sent : list string)
    (failed : list FailedEmail.t) :
  failed_addresses (delivery_response req sent failed)
  = map FailedEmail.email failed.
Proof.
  unfold failed_addresses, delivery_response.
  destruct failed; reflexivity.
Qed.

Lemma sent_emails_delivery (req : EmailRequest.t) (sent : list string)
    (failed : list FailedEmail.t) :
  EmailResponse.sent_emails (delivery_response req sent failed) = sent.
Proof. unfold delivery_response. destruct failed; reflexivity. Qed.

(** C4. When [send_email] reaches its delivery loop, the relay is called
    once for each recipient of the request, in order and each call for that
    recipient alone, whatever the earlier calls answered; the recipients
    are split between the sent list and the failed list, each occurrence in
    one of the two; and every record that a request adds with status
    ["sent"] or ["partial"] has [sent_count + failed_count] equal to the
    number of its recipients. *)
Theorem send_email_attempts_every_recipient (env : Env) (tid : string)
    (req : EmailRequest.t) (w : World) :
  (exists new,
      email_logs (snd (send_email env tid req w)) = email_logs w ++ new
      /\ Forall counts_add_up new)
  /\ (forall t,
        find_one_fault env = None ->
        List.find (has_id tid) (transcripts w) = Some t ->
        truthy (summary_of t) = true ->
        exists resp w',
          send_email env tid req w = (Returned resp, w')
          /\ smtp_attempts w' = smtp_attempts w ++ calls_for req t
          /\ map SmtpCall.recipients (calls_for req t)
             = map (fun r => [r]) (EmailRequest.recipients req)
          /\ EmailResponse.sent_emails resp ++ failed_addresses resp
             ≡ₚ EmailRequest.recipients req
          /\ (write_fault env = None ->
              exists log,
                email_logs w' = email_logs w ++ [log]
                /\ EmailLog.recipients log = EmailRequest.recipients req
                /\ EmailLog.sent_count log
                   = Some (length (EmailResponse.sent_emails resp))
                /\ EmailLog.failed_count log
                   = Some (length (failed_addresses resp))
                /\ counts_add_up log)).
Proof.
  assert (Hsum : forall sent failed,
             (length sent + length failed
              = length (EmailRequest.recipients req))%nat ->
             counts_add_up (delivery_log env tid req sent failed)).
  { intros sent failed Hl _. exists (length sent), (length failed).
    repeat split. exact Hl. }
  split.
  - destruct (send_email_logs env tid req w)
      as [[H _]|[(e & H & _ & _)|(t & _ & _ & H)]].
    + exists []. rewrite app_nil_r. split; [exact H|constructor].
    + eexists. split; [exact H|]. apply Forall_singleton.
      intros [Hs|Hs]; discriminate Hs.
    + eexists. split; [exact H|]. apply Forall_singleton, Hsum.
      apply sent_failed_length.
  - intros t Hf Hs Ht.
    rewrite (send_email_delivered env tid req w t Hf Hs Ht).
    eexists. eexists. split; [reflexivity|]. cbn [smtp_attempts email_logs].
    split; [reflexivity|]. split.
    { unfold calls_for. rewrite map_map. reflexivity. }
    rewrite failed_addresses_delivery, sent_emails_delivery. split.
    { apply sent_failed_perm. }
    intros Hw. rewrite Hw. eexists. split; [reflexivity|].
    cbn. rewrite length_map. repeat split.
    apply Hsum, sent_failed_length.
Qed.

Lemma send_email_attempts_every_recipient_witness :
  exists resp w',
    send_email (quiet None None smtp_no_b) "a" req_ab world_a
    = (Returned resp, w')
    /\ map SmtpCall.recipients (smtp_attempts w') = [["a@x.com"]; ["b@x.com"]]
    /\ EmailResponse.sent_emails resp ++ failed_addresses resp
       ≡ₚ ["a@x.com"; "b@x.com"].
Proof.
  destruct (send_email_attempts_every_recipient
              (quiet None None smtp_no_b) "a" req_ab world_a) as [_ H].
  destruct (H doc_a eq_refl eq_refl eq_refl)
    as (resp & w' & He & Ha & Hc & Hp & _).
  exists resp, w'. split; [exact He|]. split; [|exact Hp].
  rewrite Ha, map_app, Hc. reflexivity.
Defined.

(** ** Order of the two lists *)

Lemma send_email_returned (env : Env) (tid : string) (req : EmailRequest.t)
    (w : World) (resp : EmailResponse.t) (w' : World) :
  send_email env tid req w = (Returned resp, w') ->
  resp = delivery_response req
           (sent_of env (length (smtp_attempts w)) (EmailRequest.recipients req))
           (failed_of env (length (smtp_attempts w))
              (EmailRequest.recipients req)).
Proof.
  destruct (find_one_fault env) as [m|] eqn:Hf.
  - rewrite (send_email_lookup_fault env tid req w m Hf). discriminate.
  - destruct (List.find (has_id tid) (transcripts w)) as [t|] eqn:Hs.
    + destruct (truthy (summary_of t)) eqn:Ht.
      * rewrite (send_email_delivered env tid req w t Hf Hs Ht). congruence.
      * rewrite (send_email_no_summary env tid req w t Hf Hs Ht). discriminate.
    + rewrite (send_email_not_found env tid req w Hf Hs). discriminate.
Qed.

(** C5. In every response that [send_email] returns, [sent_emails] and the
    addresses of [failed_emails] are each in the order in which the request
    listed those recipients. *)
Theorem send_email_lists_keep_order (env : Env) (tid : string)
    (req : EmailRequest.t) (w : World) (resp : EmailResponse.t) (w' : World) :
  send_email env tid req w = (Returned resp, w') ->
  sublist (EmailResponse.sent_emails resp) (EmailRequest.recipients req)
  /\ sublist (failed_addresses resp) (EmailRequest.recipients req)
  /\ EmailResponse.sent_emails resp
     = sent_of env (length (smtp_attempts w)) (EmailRequest.recipients req)
  /\ default [] (EmailResponse.failed_emails resp)
     = failed_of env (length (smtp_attempts w)) (EmailRequest.recipients req).
Proof.
  intros H. apply send_email_returned in H. subst resp.
  rewrite failed_addresses_delivery, sent_emails_delivery.
  split; [apply sent_of_sublist|]. split; [apply failed_of_sublist|].
  split; [reflexivity|].
  unfold delivery_response. destruct (failed_of _ _ _); reflexivity.
Qed.

Lemma send_email_lists_keep_order_witness :
  sublist ["c@x.com"; "a@x.com"] (EmailRequest.recipients req_abc)
  /\ sublist ["b@x.com"; "b@x.com"] (EmailRequest.recipients req_abc).
Proof.
  pose proof (send_email_lists_keep_order
                (quiet None None smtp_no_b) "a" req_abc world_a _ _ eq_refl)
    as (Hs & Hf & _).
  split; [exact Hs|exact Hf].
Defined.

(** ** The audit record is best effort *)

Lemma sent_of_write_fault (env : Env) (f : option string) (rs : list string) :
  forall k, sent_of (with_write_fault env f) k rs = sent_of env k rs.
Proof.
  induction rs as [|r rs IH]; intros k; cbn; [reflexivity|].
  now rewrite IH.
Qed.

Lemma failed_of_write_fault (env : Env) (f : option string) (rs : list string) :
  forall k, failed_of (with_write_fault env f) k rs = failed_of env k rs.
Proof.
  induction rs as [|r rs IH]; intros k; cbn; [reflexivity|].
  now rewrite IH.
Qed.

(** C6. When [send_email] reaches its delivery loop it makes one write to
    [email_logs]: if the write succeeds, exactly one record is added; if
    the driver fails on it, none is, and the handler still returns the
    response it returns when the write succeeds, after the same calls to
    the relay. *)
Theorem send_email_log_is_best_effort (env : Env) (tid : string)
    (req : EmailRequest.t) (w : World) (t : Transcript.t) (m : string) :
  find_one_fault env = None ->
  List.find (has_id tid) (transcripts w) = Some t ->
  truthy (summary_of t) = true ->
  let stored := send_email (with_write_fault env None) tid req w in
  let lost := send_email (with_write_fault env (Some m)) tid req w in
  (exists log, email_logs (snd stored) = email_logs w ++ [log])
  /\ email_logs (snd lost) = email_logs w
  /\ (exists resp, fst lost = Returned resp /\ fst stored = Returned resp)
  /\ smtp_attempts (snd lost) = smtp_attempts (snd stored)
  /\ smtp_attempts (snd lost) = smtp_attempts w ++ calls_for req t.
Proof.
  intros Hf Hs Ht stored lost. subst stored lost.
  rewrite (send_email_delivered (with_write_fault env None) tid req w t Hf Hs Ht).
  rewrite (send_email_delivered (with_write_fault env (Some m)) tid req w t
             Hf Hs Ht).
  cbn [fst snd email_logs smtp_attempts with_write_fault write_fault].
  rewrite !sent_of_write_fault, !failed_of_write_fault.
  split; [eexists; reflexivity|]. split; [reflexivity|].
  split; [eexists; split; reflexivity|]. split; reflexivity.
Qed.

Lemma send_email_log_is_best_effort_witness :
  email_logs (snd (send_email (quiet None (Some "disk full") smtp_no_b)
                     "a" req_ab world_a))
  = email_logs world_a
  /\ exists resp,
       fst (send_email (quiet None (Some "disk full") smtp_no_b)
              "a" req_ab world_a) = Returned resp
       /\ fst (send_email (quiet None None smtp_no_b) "a" req_ab world_a)
          = Returned resp.
Proof.
  destruct (send_email_log_is_best_effort (quiet None None smtp_no_b) "a"
              req_ab world_a doc_a "disk full" eq_refl eq_refl eq_refl)
    as (_ & Hl & Hr & _).
  split; [exact Hl|exact Hr].
Defined.

(** ** Updating the edited summary *)

Lemma find_set_first (tid tid' : string) (f : Transcript.t -> Transcript.t)
    (ds : list Transcript.t) :
  (forall d, Transcript.id (f d) = Transcript.id d) ->
  List.find (has_id tid') (set_first tid f ds)
  = if String.eqb tid tid'
    then option_map f (List.find (has_id tid) ds)
    else List.find (has_id tid') ds.
Proof.
  intros Hid. induction ds as [|d ds IH]; cbn.
  - now destruct (String.eqb tid tid').
  - destruct (String.eqb_spec tid tid') as [<-|Hne].
    + destruct (has_id tid d) eqn:Hd; cbn.
      * unfold has_id in *. now rewrite Hid, Hd.
      * now rewrite Hd.
    + destruct (has_id tid d) eqn:Hd; cbn.
      * unfold has_id in *. rewrite Hid.
        apply String.eqb_eq in Hd. subst tid.
        destruct (String.eqb_spec (Transcript.id d) tid'); [contradiction|].
        reflexivity.
      * destruct (has_id tid' d); [reflexivity|exact IH].
Qed.

Lemma length_set_first (tid : string) (f : Transcript.t -> Transcript.t)
    (ds : list Transcript.t) :
  length (set_first tid f ds) = length ds.
Proof.
  induction ds as [|d ds IH]; cbn; [reflexivity|].
  destruct (has_id tid d); cbn; congruence.
Qed.

Lemma bson_datetime_bounds (t : Z) :
  t - 1000 < bson_datetime t <= t.
Proof.
  unfold bson_datetime.
  pose proof (Z.div_mod t 1000 ltac:(lia)) as Hd.
  pose proof (Z.mod_pos_bound t 1000 ltac:(lia)) as Hm.
  lia.
Qed.

(** C7. On a transcript that is in the store, [update_summary] stores the
    new [edited_summary] and, as [updated_at], the clock's reading cut to
    the millisecond that the store keeps; it leaves [generated_summary],
    [title], [original_text], [custom_prompt], [id] and [created_at] of
    that transcript as they were, and the other transcripts and the email
    records untouched.  The new [updated_at] is at most the clock's
    reading and less than a millisecond before it, so it is later than
    [created_at] once the clock reads a millisecond or more past
    [created_at]. *)
Theorem update_summary_frame (env : Env) (tid : string)
    (update : TranscriptUpdate.t) (w : World) (t : Transcript.t) :
  find_one_fault env = None ->
  write_fault env = None ->
  List.find (has_id tid) (transcripts w) = Some t ->
  exists w' t',
    update_summary env tid update w
    = (Returned "Summary updated successfully", w')
    /\ List.find (has_id tid) (transcripts w') = Some t'
    /\ Transcript.edited_summary t'
       = Some (TranscriptUpdate.edited_summary update)
    /\ Transcript.updated_at t' = Some (bson_datetime (utcnow env))
    /\ utcnow env - 1000 < bson_datetime (utcnow env) <= utcnow env
    /\ (Transcript.created_at t + 1000 <= utcnow env ->
        Transcript.created_at t' < bson_datetime (utcnow env))
    /\ Transcript.generated_summary t' = Transcript.generated_summary t
    /\ Transcript.title t' = Transcript.title t
    /\ Transcript.original_text t' = Transcript.original_text t
    /\ Transcript.custom_prompt t' = Transcript.custom_prompt t
    /\ Transcript.id t' = Transcript.id t
    /\ Transcript.created_at t' = Transcript.created_at t
    /\ (forall other, other <> tid ->
          List.find (has_id other) (transcripts w')
          = List.find (has_id other) (transcripts w))
    /\ length (transcripts w') = length (transcripts w)
    /\ email_logs w' = email_logs w.
Proof.
  intros Hf Hw Hs.
  unfold update_summary, try_except, bind, find_one, update_one, ret.
  rewrite Hf, Hs, Hw.
  eexists. exists (set_edited_summary (TranscriptUpdate.edited_summary update)
                     (utcnow env) t).
  split; [reflexivity|]. cbn [transcripts email_logs].
  split.
  { rewrite find_set_first by reflexivity.
    now rewrite String.eqb_refl, Hs. }
  split; [reflexivity|]. split; [reflexivity|].
  split; [apply bson_datetime_bounds|].
  split.
  { intros Hlate. cbn [set_edited_summary Transcript.created_at].
    pose proof (bson_datetime_bounds (utcnow env)). lia. }
  do 6 (split; [reflexivity|]).
  split.
  { intros other Hne. rewrite find_set_first by reflexivity.
    destruct (String.eqb_spec tid other); [congruence|reflexivity]. }
  split; [apply length_set_first|reflexivity].
Qed.

Lemma update_summary_frame_witness :
  exists w' t',
    update_summary (quiet None None smtp_ok) "a"
      (TranscriptUpdate.Build "edited") world_a
    = (Returned "Summary updated successfully", w')
    /\ List.find (has_id "a") (transcripts w') = Some t'
    /\ Transcript.edited_summary t' = Some "edited"
    /\ Transcript.generated_summary t' = Some "generated"
    /\ Transcript.updated_at t' = Some 2000
    /\ Transcript.created_at t' < 2000.
Proof.
  destruct (update_summary_frame (quiet None None smtp_ok) "a"
              (TranscriptUpdate.Build "edited") world_a doc_a
              eq_refl eq_refl eq_refl)
    as (w' & t' & He & Hfind & Hed & Hup & _ & Hlate & Hgen & _).
  exists w', t'. split; [exact He|]. split; [exact Hfind|].
  split; [exact Hed|]. split; [exact Hgen|]. split; [exact Hup|].
  apply Hlate. cbn. lia.
Defined.

(** With the clock at 1500, later than the [created_at] 1000 of the stored
    transcript, the [updated_at] that [update_summary] stores is 1000: it
    is not later than [created_at]. *)
Lemma update_summary_updated_at_not_later :
  exists w' t',
    update_summary env_1500 "a" (TranscriptUpdate.Build "edited") world_a
    = (Returned "Summary updated successfully", w')
    /\ List.find (has_id "a") (transcripts w') = Some t'
    /\ Transcript.created_at t' = 1000
    /\ Transcript.created_at t' < utcnow env_1500
    /\ Transcript.updated_at t' = Some 1000
    /\ ~ (exists u, Transcript.updated_at t' = Some u
                    /\ Transcript.created_at t' < u).
Proof.
  eexists. eexists. split; [reflexivity|]. split; [reflexivity|].
  split; [reflexivity|]. split; [reflexivity|]. split; [reflexivity|].
  intros (u & Hu & Hlt). vm_compute in Hu. injection Hu as <-.
  vm_compute in Hlt. discriminate Hlt.
Qed.

(** ** Deleting a transcript *)

Lemma existsb_find (tid : string) (ds : list Transcript.t) :
  existsb (has_id tid) ds = false <-> List.find (has_id tid) ds = None.
Proof.
  induction ds as [|d ds IH]; cbn; [tauto|].
  destruct (has_id tid d); cbn; [split; discriminate|exact IH].
Qed.

Lemma find_none_ids (tid : string) (ds : list Transcript.t) :
  tid ∉ map Transcript.id ds -> List.find (has_id tid) ds = None.
Proof.
  induction ds as [|d ds IH]; cbn; [reflexivity|].
  intros Hn. apply not_elem_of_cons in Hn as [Hne Hn].
  unfold has_id at 1. destruct (String.eqb_spec (Transcript.id d) tid).
  - congruence.
  - apply IH, Hn.
Qed.

Lemma remove_first_absent (tid : string) (ds : list Transcript.t) :
  List.find (has_id tid) ds = None -> remove_first tid ds = ds.
Proof.
  induction ds as [|d ds IH]; cbn; [reflexivity|].
  destruct (has_id tid d); [discriminate|]. intros H. now rewrite IH.
Qed.

Lemma find_remove_first (tid other : string) (ds : list Transcript.t) :
  NoDup (map Transcript.id ds) ->
  List.find (has_id other) (remove_first tid ds)
  = if String.eqb tid other then None else List.find (has_id other) ds.
Proof.
  induction ds as [|d ds IH]; cbn; intros Hnd.
  - now destruct (String.eqb tid other).
  - apply NoDup_cons in Hnd as [Hd Hnd].
    destruct (has_id tid d) eqn:Htd.
    + apply String.eqb_eq in Htd.
      destruct (String.eqb_spec tid other) as [<-|Hne].
      * apply find_none_ids. now rewrite <- Htd.
      * unfold has_id at 2. rewrite Htd.
        now destruct (String.eqb_spec tid other).
    + cbn. destruct (String.eqb_spec tid other) as [<-|Hne].
      * rewrite Htd. rewrite IH by exact Hnd.
        now destruct (String.eqb_spec tid tid).
      * rewrite IH by exact Hnd.
        now destruct (String.eqb_spec tid other).
Qed.

(** An id that the store does not hold: status 404, nothing changes. *)
Lemma delete_transcript_absent (env : Env) (tid : string) (w : World) :
  write_fault env = None ->
  List.find (has_id tid) (transcripts w) = None ->
  exists w',
    delete_transcript env tid w
    = (Raised (HTTPException 404 "Transcript not found"), w')
    /\ transcripts w' = transcripts w
    /\ email_logs w' = email_logs w.
Proof.
  intros Hw Hn.
  unfold delete_transcript, bind, delete_one, raise. rewrite Hw.
  rewrite (proj2 (existsb_find tid (transcripts w)) Hn). cbn.
  eexists. split; [reflexivity|]. cbn.
  split; [now apply remove_first_absent|reflexivity].
Qed.

(** An id that the store holds: the document is gone from the collection,
    the others and all of [email_logs] stay. *)
Lemma delete_transcript_present (env : Env) (tid : string) (w : World)
    (t : Transcript.t) :
  write_fault env = None ->
  NoDup (map Transcript.id (transcripts w)) ->
  List.find (has_id tid) (transcripts w) = Some t ->
  exists w',
    delete_transcript env tid w
    = (Returned "Transcript deleted successfully", w')
    /\ List.find (has_id tid) (transcripts w') = None
    /\ (forall other, other <> tid ->
          List.find (has_id other) (transcripts w')
          = List.find (has_id other) (transcripts w))
    /\ email_logs w' = email_logs w.
Proof.
  intros Hw Hnd Hs.
  unfold delete_transcript, bind, delete_one, ret. rewrite Hw.
  destruct (existsb (has_id tid) (transcripts w)) eqn:He.
  2:{ apply existsb_find in He. congruence. }
  cbn. eexists. split; [reflexivity|]. cbn.
  split.
  { rewrite find_remove_first by exact Hnd. now rewrite String.eqb_refl. }
  split; [|reflexivity].
  intros other Hne. rewrite find_remove_first by exact Hnd.
  destruct (String.eqb_spec tid other); [congruence|reflexivity].
Qed.

(** C8. Deleting ["zz"], which the store does not hold, raises status 404.
    Deleting ["a"], which it holds, removes the document and keeps the
    email record that names ["a"]; the fetch of ["a"] that follows does not
    end in a not-found response but in a server error (status 500). *)
Theorem delete_then_get_is_server_error :
  let env := quiet None None smtp_ok in
  fst (delete_transcript env "zz" world_a)
  = Raised (HTTPException 404 "Transcript not found")
  /\ exists w' e w'',
       delete_transcript env "a" world_a
       = (Returned "Transcript deleted successfully", w')
       /\ List.find (has_id "a") (transcripts w') = None
       /\ log_a ∈ email_logs w'
       /\ EmailLog.transcript_id log_a = "a"
       /\ get_transcript env "a" w' = (Raised e, w'')
       /\ status_of e = 500
       /\ category_of e = ServerError
       /\ category_of e <> NotFound.
Proof.
  cbv zeta. split; [reflexivity|].
  eexists. eexists. eexists.
  split; [reflexivity|]. split; [reflexivity|].
  split; [cbn; apply list_elem_of_here|].
  split; [reflexivity|]. split; [reflexivity|].
  split; [reflexivity|]. split; [reflexivity|]. discriminate.
Qed.

(** ** Creating a transcript *)

Lemma find_app_fresh (tid : string) (ds : list Transcript.t)
    (d : Transcript.t) :
  existsb (has_id tid) ds = false ->
  Transcript.id d = tid ->
  List.find (has_id tid) (ds ++ [d]) = Some d.
Proof.
  intros He Hid. induction ds as [|x ds IH]; cbn in *.
  - unfold has_id. now rewrite Hid, String.eqb_refl.
  - destruct (has_id tid x); [discriminate|]. now apply IH.
Qed.

(** With the driver answering, a fresh uuid and a prompt in the request,
    [create_transcript] stores the document and returns it. *)
Lemma create_transcript_returns (env : Env) (req : TranscriptCreate.t)
    (w : World) (p : string) :
  write_fault env = None ->
  List.find (has_id (uuid4 env)) (transcripts w) = None ->
  TranscriptCreate.custom_prompt req = Some p ->
  exists w',
    create_transcript env req w
    = (Returned
         (TranscriptResponse.Build (uuid4 env) (TranscriptCreate.title req)
            (TranscriptCreate.original_text req) p None None (utcnow env) None),
       w')
    /\ length (transcripts w') = S (length (transcripts w)).
Proof.
  intros Hw Hn Hp.
  unfold create_transcript, try_except, bind, insert_one_transcript,
    TranscriptResponse_of, ret.
  cbn [Transcript.id Transcript.custom_prompt].
  rewrite Hw, (proj2 (existsb_find _ _) Hn), Hp.
  eexists. split; [reflexivity|]. cbn.
  rewrite length_app. cbn. lia.
Qed.

(** C9. When [create_transcript] returns a transcript for a request with
    title [T] and text [X], fetching the returned id from the resulting
    store returns a record whose [original_text] is [X] and whose
    [generated_summary] and [edited_summary] are both [None]. *)
Theorem create_then_get (env env' : Env) (req : TranscriptCreate.t)
    (w w' : World) (resp : TranscriptResponse.t) :
  create_transcript env req w = (Returned resp, w') ->
  find_one_fault env' = None ->
  exists r,
    get_transcript env' (TranscriptResponse.id resp) w' = (Returned r, w')
    /\ TranscriptResponse.id r = TranscriptResponse.id resp
    /\ TranscriptResponse.title r = TranscriptCreate.title req
    /\ TranscriptResponse.original_text r = TranscriptCreate.original_text req
    /\ TranscriptResponse.generated_summary r = None
    /\ TranscriptResponse.edited_summary r = None.
Proof.
  unfold create_transcript, try_except, bind, insert_one_transcript,
    TranscriptResponse_of, raise, ret, print.
  cbn [Transcript.id Transcript.custom_prompt].
  destruct (write_fault env); [discriminate|].
  destruct (existsb (has_id (uuid4 env)) (transcripts w)) eqn:He;
    [discriminate|].
  destruct (TranscriptCreate.custom_prompt req) as [p|] eqn:Hp;
    [|discriminate].
  intros H Hf. injection H as <- <-. cbn [TranscriptResponse.id].
  erewrite get_transcript_known; [|exact Hf|].
  2:{ cbn [transcripts]. apply find_app_fresh; [exact He|reflexivity]. }
  cbn. eexists. split; [reflexivity|]. repeat split.
Qed.

Lemma create_then_get_witness :
  exists resp w' r,
    create_transcript (quiet None None smtp_ok) create_req world_a
    = (Returned resp, w')
    /\ get_transcript (quiet None None smtp_ok) (TranscriptResponse.id resp) w'
       = (Returned r, w')
    /\ TranscriptResponse.original_text r = "we planned"
    /\ TranscriptResponse.generated_summary r = None
    /\ TranscriptResponse.edited_summary r = None.
Proof.
  eexists. eexists.
  destruct (create_then_get (quiet None None smtp_ok) (quiet None None smtp_ok)
              create_req world_a _ _ eq_refl eq_refl)
    as (r & Hg & _ & _ & Ho & Hgen & Hed).
  exists r. split; [reflexivity|]. split; [exact Hg|].
  split; [exact Ho|]. split; [exact Hgen|exact Hed].
Defined.

(** ** Empty summaries *)

Lemma truthy_nonempty (s : string) : s <> "" -> truthy (Some s) = true.
Proof.
  intros Hs. cbn. now destruct (String.eqb_spec s "").
Qed.

(** C10. [send_email] takes an [edited_summary] that is the empty string
    as absent: the mail then carries the [generated_summary]; and when both
    summaries are the empty string the request fails with the no-summary
    error, without a call to the relay and without a record. *)
Theorem empty_summary_counts_as_absent (env : Env) (tid : string)
    (req : EmailRequest.t) (w : World) (t : Transcript.t) :
  find_one_fault env = None ->
  List.find (has_id tid) (transcripts w) = Some t ->
  Transcript.edited_summary t = Some "" ->
  (forall g,
      Transcript.generated_summary t = Some g -> g <> "" ->
      exists resp w',
        send_email env tid req w = (Returned resp, w')
        /\ smtp_attempts w'
           = smtp_attempts w
             ++ map (fun r => SmtpCall.Build [r] (subject_used req t)
                                (email_body (Transcript.title t) g))
                    (EmailRequest.recipients req))
  /\ (Transcript.generated_summary t = Some "" ->
      exists w',
        send_email env tid req w
        = (Raised (HTTPException 400 "No summary available to send"), w')
        /\ smtp_attempts w' = smtp_attempts w
        /\ email_logs w' = email_logs w).
Proof.
  intros Hf Hs He. split.
  - intros g Hg Hne.
    assert (Hsum : summary_of t = Some g).
    { unfold summary_of, py_or. now rewrite He, Hg. }
    assert (Ht : truthy (summary_of t) = true).
    { rewrite Hsum. now apply truthy_nonempty. }
    rewrite (send_email_delivered env tid req w t Hf Hs Ht).
    eexists. eexists. split; [reflexivity|]. cbn [smtp_attempts].
    unfold calls_for. now rewrite Hsum.
  - intros Hg.
    assert (Ht : truthy (summary_of t) = false).
    { unfold summary_of, py_or. now rewrite He, Hg. }
    rewrite (send_email_no_summary env tid req w t Hf Hs Ht).
    eexists. split; [reflexivity|]. split; reflexivity.
Qed.

Lemma empty_summary_counts_as_absent_witness :
  (exists w',
      send_email (quiet None None smtp_ok) "b" req_ab world_b
      = (Raised (HTTPException 400 "No summary available to send"), w')
      /\ smtp_attempts w' = []
      /\ email_logs w' = [])
  /\ (exists resp w',
         send_email (quiet None None smtp_ok) "h" req_ab world_b
         = (Returned resp, w')
         /\ map SmtpCall.message_text (smtp_attempts w')
            = [email_body "Sync" "generated"; email_body "Sync" "generated"]).
Proof.
  split.
  - apply (empty_summary_counts_as_absent (quiet None None smtp_ok) "b"
             req_ab world_b doc_blank eq_refl eq_refl eq_refl).
    reflexivity.
  - destruct (empty_summary_counts_as_absent (quiet None None smtp_ok) "h"
                req_ab world_b doc_half eq_refl eq_refl eq_refl) as [H _].
    destruct (H "generated" eq_refl ltac:(discriminate))
      as (resp & w' & He & Ha).
    exists resp, w'. split; [exact He|]. rewrite Ha. reflexivity.
Defined.

(** ** What the other handlers do to the store *)

Lemma ids_set_first (tid : string) (f : Transcript.t -> Transcript.t)
    (ds : list Transcript.t) :
  (forall d, Transcript.id (f d) = Transcript.id d) ->
  map Transcript.id (set_first tid f ds) = map Transcript.id ds.
Proof.
  intros Hid. induction ds as [|d ds IH]; cbn; [reflexivity|].
  destruct (has_id tid d); cbn; [now rewrite Hid|now rewrite IH].
Qed.

Lemma set_first_absent (tid : string) (f : Transcript.t -> Transcript.t)
    (ds : list Transcript.t) :
  List.find (has_id tid) ds = None -> set_first tid f ds = ds.
Proof.
  induction ds as [|d ds IH]; cbn; [reflexivity|].
  destruct (has_id tid d); [discriminate|]. intros H. now rewrite IH.
Qed.

Lemma remove_first_sublist (tid : string) (ds : list Transcript.t) :
  sublist (remove_first tid ds) ds.
Proof.
  induction ds as [|d ds IH]; cbn; [constructor|].
  destruct (has_id tid d); [now apply sublist_cons|now apply sublist_skip].
Qed.

Lemma length_remove_first (tid : string) (ds : list Transcript.t)
    (t : Transcript.t) :
  List.find (has_id tid) ds = Some t ->
  S (length (remove_first tid ds)) = length ds.
Proof.
  induction ds as [|d ds IH]; cbn; [discriminate|].
  destruct (has_id tid d); [reflexivity|].
  intros H. cbn. now rewrite IH.
Qed.

(** The ways through [update_summary]: it raises with status 500 and the
    collections as they were, or it returns and has set the fields. *)
Lemma update_summary_cases (env : Env) (tid : string)
    (update : TranscriptUpdate.t) (w : World) :
  let r := update_summary env tid update w in
  email_logs (snd r) = email_logs w
  /\ smtp_attempts (snd r) = smtp_attempts w
  /\ ((exists e, fst r = Raised e /\ status_of e = 500
                 /\ transcripts (snd r) = transcripts w)
      \/ (fst r = Returned "Summary updated successfully"
          /\ transcripts (snd r)
             = set_first tid
                 (set_edited_summary (TranscriptUpdate.edited_summary update)
                    (utcnow env))
                 (transcripts w))).
Proof.
  unfold update_summary, try_except, bind, find_one, update_one, raise, print,
    ret.
  destruct (find_one_fault env); cbn.
  { repeat split. left. eexists. repeat split. }
  destruct (List.find (has_id tid) (transcripts w)); cbn.
  2:{ repeat split. left. eexists. repeat split. }
  destruct (write_fault env); cbn.
  - repeat split. left. eexists. repeat split.
  - repeat split. right. split; reflexivity.
Qed.

(** The same for [generate_summary]. *)
Lemma generate_summary_cases (env : Env) (gemini : string -> GeminiAnswer)
    (tid : string) (w : World) :
  let r := generate_summary env gemini tid w in
  email_logs (snd r) = email_logs w
  /\ smtp_attempts (snd r) = smtp_attempts w
  /\ ((exists e, fst r = Raised e /\ status_of e = 500
                 /\ transcripts (snd r) = transcripts w)
      \/ (exists s, fst r = Returned s
          /\ transcripts (snd r)
             = set_first tid (set_generated_summary s (utcnow env))
                 (transcripts w))).
Proof.
  unfold generate_summary, generate_summary_with_gemini, try_except, bind,
    find_one, update_one, raise, print, ret.
  destruct (find_one_fault env); cbn.
  { repeat split. left. eexists. repeat split. }
  destruct (List.find (has_id tid) (transcripts w)) as [t|]; cbn.
  2:{ repeat split. left. eexists. repeat split. }
  destruct (gemini _); cbn.
  2:{ repeat split. left. eexists. repeat split. }
  destruct (write_fault env); cbn.
  - repeat split. left. eexists. repeat split.
  - repeat split. right. eexists. split; reflexivity.
Qed.

Lemma collect_eq (docs : list Transcript.t) :
  forall acc w,
    collect docs acc w =
    match List.find (fun d => negb (bool_decide (is_Some (Transcript.custom_prompt d)))) docs with
    | Some _ => (Raised (ValidationError "custom_prompt"), w)
    | None =>
        (Returned
           (acc ++ omap (fun d =>
                           match Transcript.custom_prompt d with
                           | Some p =>
                               Some (TranscriptResponse.Build
                                       (Transcript.id d) (Transcript.title d)
                                       (Transcript.original_text d) p
                                       (Transcript.generated_summary d)
                                       (Transcript.edited_summary d)
                                       (Transcript.created_at d)
                                       (Transcript.updated_at d))
                           | None => None
                           end) docs), w)
    end.
Proof.
  induction docs as [|d docs IH]; intros acc w; cbn.
  - unfold ret. now rewrite app_nil_r.
  - unfold bind, TranscriptResponse_of.
    destruct (Transcript.custom_prompt d) as [p|]; cbn; [|reflexivity].
    unfold ret. rewrite IH.
    destruct (List.find _ docs); [reflexivity|].
    now rewrite <- app_assoc.
Qed.

(** X1. Whatever [get_transcript], [get_transcripts], [create_transcript],
    [update_summary] and [generate_summary] raise is reported with status
    500: none of them ever answers with 404 or 400, an unknown id
    included. *)
Theorem handlers_raise_only_500 (env : Env) (gemini : string -> GeminiAnswer)
    (c : Cursor) (tid : string) (create : TranscriptCreate.t)
    (update : TranscriptUpdate.t) (w : World) :
  raises_only_500 (fst (get_transcript env tid w))
  /\ raises_only_500 (fst (get_transcripts env c w))
  /\ raises_only_500 (fst (create_transcript env create w))
  /\ raises_only_500 (fst (update_summary env tid update w))
  /\ raises_only_500 (fst (generate_summary env gemini tid w)).
Proof.
  split.
  { pose proof (get_transcript_raises_500 env tid w) as H.
    unfold raises_only_500. destruct (fst _); [exact I|apply H]. }
  split.
  { unfold get_transcripts, try_except, bind, find_sorted, raise, print.
    destruct (cursor_fault c); cbn; [reflexivity|].
    rewrite collect_eq. destruct (List.find _ _); cbn; [reflexivity|exact I]. }
  split.
  { unfold create_transcript, try_except, bind, insert_one_transcript,
      TranscriptResponse_of, raise, print, ret. cbn.
    destruct (write_fault env); cbn; [reflexivity|].
    destruct (existsb _ _); cbn; [reflexivity|].
    destruct (TranscriptCreate.custom_prompt create); cbn;
      [exact I|reflexivity]. }
  split.
  - destruct (update_summary_cases env tid update w)
      as (_ & _ & [(e & -> & He & _)|[-> _]]); [exact He|exact I].
  - destruct (generate_summary_cases env gemini tid w)
      as (_ & _ & [(e & -> & He & _)|(s & -> & _)]); [exact He|exact I].
Qed.

Lemma delete_transcript_cases (env : Env) (tid : string) (w : World) :
  let r := delete_transcript env tid w in
  email_logs (snd r) = email_logs w
  /\ smtp_attempts (snd r) = smtp_attempts w
  /\ ((exists e, fst r = Raised e /\ transcripts (snd r) = transcripts w)
      \/ (fst r = Returned "Transcript deleted successfully"
          /\ transcripts (snd r) = remove_first tid (transcripts w))).
Proof.
  unfold delete_transcript, bind, delete_one, raise, ret.
  destruct (write_fault env); cbn.
  { repeat split. left. eexists. repeat split. }
  destruct (existsb (has_id tid) (transcripts w)) eqn:He; cbn.
  - repeat split. right. split; reflexivity.
  - repeat split. left. eexists. split; [reflexivity|].
    apply remove_first_absent, existsb_find, He.
Qed.

Lemma send_email_transcripts (env : Env) (tid : string)
    (req : EmailRequest.t) (w : World) :
  transcripts (snd (send_email env tid req w)) = transcripts w.
Proof.
  destruct (find_one_fault env) as [m|] eqn:Hf.
  - now rewrite (send_email_lookup_fault env tid req w m Hf).
  - destruct (List.find (has_id tid) (transcripts w)) as [t|] eqn:Hs.
    + destruct (truthy (summary_of t)) eqn:Ht.
      * now rewrite (send_email_delivered env tid req w t Hf Hs Ht).
      * now rewrite (send_email_no_summary env tid req w t Hf Hs Ht).
    + now rewrite (send_email_not_found env tid req w Hf Hs).
Qed.

Lemma create_transcript_cases (env : Env) (create : TranscriptCreate.t)
    (w : World) :
  let r := create_transcript env create w in
  let doc :=
    Transcript.Build (uuid4 env) (TranscriptCreate.title create)
      (TranscriptCreate.original_text create)
      (TranscriptCreate.custom_prompt create) None None
      (bson_datetime (utcnow env)) None in
  email_logs (snd r) = email_logs w
  /\ smtp_attempts (snd r) = smtp_attempts w
  /\ ((transcripts (snd r) = transcripts w
       /\ (write_fault env <> None
           \/ List.find (has_id (uuid4 env)) (transcripts w) <> None))
      \/ (transcripts (snd r) = transcripts w ++ [doc]
          /\ write_fault env = None
          /\ List.find (has_id (uuid4 env)) (transcripts w) = None)).
Proof.
  unfold create_transcript, try_except, bind, insert_one_transcript,
    TranscriptResponse_of, raise, print, ret. cbn.
  destruct (write_fault env); cbn.
  { repeat split. left. split; [reflexivity|]. left. discriminate. }
  destruct (existsb _ _) eqn:He; cbn.
  - repeat split. left. split; [reflexivity|]. right. intros Hn.
    apply existsb_find in Hn. congruence.
  - apply existsb_find in He.
    destruct (TranscriptCreate.custom_prompt create); cbn;
      repeat split; right; repeat split; exact He.
Qed.

Lemma find_none_not_in (tid : string) (ds : list Transcript.t) :
  List.find (has_id tid) ds = None -> tid ∉ map Transcript.id ds.
Proof.
  induction ds as [|d ds IH]; cbn; [intros _; apply not_elem_of_nil|].
  unfold has_id at 1. destruct (String.eqb_spec (Transcript.id d) tid);
    [discriminate|].
  intros H. apply not_elem_of_cons. split; [congruence|now apply IH].
Qed.

(** X2. A request to [update_summary], [generate_summary] or
    [delete_transcript] that raises has changed neither collection: a
    failed update, summarization or deletion leaves no trace in the
    store. *)
Theorem raised_request_changes_nothing (env : Env)
    (gemini : string -> GeminiAnswer) (tid : string)
    (update : TranscriptUpdate.t) (w : World) :
  (forall e w', update_summary env tid update w = (Raised e, w') ->
                same_store w w')
  /\ (forall e w', generate_summary env gemini tid w = (Raised e, w') ->
                   same_store w w')
  /\ (forall e w', delete_transcript env tid w = (Raised e, w') ->
                   same_store w w').
Proof.
  unfold same_store. split; [|split]; intros e w' H.
  - destruct (update_summary_cases env tid update w)
      as (Hl & _ & [(e0 & _ & _ & Ht)|[Hr _]]);
      rewrite H in *; cbn in *; [now split|discriminate].
  - destruct (generate_summary_cases env gemini tid w)
      as (Hl & _ & [(e0 & _ & _ & Ht)|(s & Hr & _)]);
      rewrite H in *; cbn in *; [now split|discriminate].
  - destruct (delete_transcript_cases env tid w)
      as (Hl & _ & [(e0 & _ & Ht)|[Hr _]]);
      rewrite H in *; cbn in *; [now split|discriminate].
Qed.

Lemma raised_request_changes_nothing_witness :
  exists e w',
    generate_summary (quiet None None smtp_ok) gemini_down "a" world_a
    = (Raised e, w')
    /\ same_store world_a w'.
Proof.
  eexists. eexists. split; [reflexivity|].
  destruct (raised_request_changes_nothing (quiet None None smtp_ok)
              gemini_down "a" (TranscriptUpdate.Build "") world_a)
    as (_ & H & _).
  eapply H. reflexivity.
Defined.

(** X3. [get_transcript] and [get_transcripts] change neither collection
    and call no relay, and [send_email] never changes [transcripts],
    whatever the request and whatever the surroundings answer. *)
Theorem reading_handlers_keep_store (env : Env) (c : Cursor) (tid : string)
    (req : EmailRequest.t) (w : World) :
  (same_store w (snd (get_transcript env tid w))
   /\ smtp_attempts (snd (get_transcript env tid w)) = smtp_attempts w)
  /\ (same_store w (snd (get_transcripts env c w))
      /\ smtp_attempts (snd (get_transcripts env c w)) = smtp_attempts w)
  /\ transcripts (snd (send_email env tid req w)) = transcripts w.
Proof.
  unfold same_store. split; [|split].
  - unfold get_transcript, try_except, bind, find_one, raise, print,
      TranscriptResponse_of, ret.
    destruct (find_one_fault env); cbn; [repeat split|].
    destruct (List.find (has_id tid) (transcripts w)) as [d|]; cbn;
      [|repeat split].
    destruct (Transcript.custom_prompt d); cbn; repeat split.
  - unfold get_transcripts, try_except, bind, find_sorted, raise, print.
    destruct (cursor_fault c); cbn; [repeat split|].
    rewrite collect_eq. destruct (List.find _ _); cbn; repeat split.
  - apply send_email_transcripts.
Qed.

(** X4. Every handler that writes to [transcripts] keeps the ids of the
    collection pairwise different: creation, update of the edited summary,
    summarization, deletion and the email handler all preserve it. *)
Theorem handlers_keep_ids_unique (env : Env) (gemini : string -> GeminiAnswer)
    (tid : string) (create : TranscriptCreate.t) (update : TranscriptUpdate.t)
    (req : EmailRequest.t) (w : World) :
  unique_ids w ->
  unique_ids (snd (create_transcript env create w))
  /\ unique_ids (snd (update_summary env tid update w))
  /\ unique_ids (snd (generate_summary env gemini tid w))
  /\ unique_ids (snd (delete_transcript env tid w))
  /\ unique_ids (snd (send_email env tid req w)).
Proof.
  unfold unique_ids. intros Hnd. repeat split.
  - destruct (create_transcript_cases env create w)
      as (_ & _ & [[-> _]|(-> & _ & Hn)]); [exact Hnd|].
    rewrite map_app. cbn. apply NoDup_app. split; [exact Hnd|].
    split; [|apply NoDup_singleton].
    intros x Hx Hin. apply list_elem_of_singleton in Hin. subst x.
    now apply find_none_not_in in Hn.
  - destruct (update_summary_cases env tid update w)
      as (_ & _ & [(e & _ & _ & ->)|[_ ->]]); [exact Hnd|].
    now rewrite ids_set_first.
  - destruct (generate_summary_cases env gemini tid w)
      as (_ & _ & [(e & _ & _ & ->)|(s & _ & ->)]); [exact Hnd|].
    now rewrite ids_set_first.
  - destruct (delete_transcript_cases env tid w)
      as (_ & _ & [(e & _ & ->)|[_ ->]]); [exact Hnd|].
    eapply sublist_NoDup; [exact Hnd|].
    apply (fmap_sublist Transcript.id), remove_first_sublist.
  - now rewrite send_email_transcripts.
Qed.

Lemma handlers_keep_ids_unique_witness :
  unique_ids (snd (create_transcript (quiet None None smtp_ok) create_req
                     world_a))
  /\ unique_ids (snd (delete_transcript (quiet None None smtp_ok) "a" world_a)).
Proof.
  assert (H0 : unique_ids world_a).
  { unfold unique_ids. apply (bool_decide_unpack _). vm_compute. exact I. }
  destruct (handlers_keep_ids_unique (quiet None None smtp_ok) gemini_echo "a"
              create_req (TranscriptUpdate.Build "e") req_ab world_a H0)
    as (Hc & _ & _ & Hd & _).
  split; [exact Hc|exact Hd].
Defined.

(** ** Creation that fails *)

(** X5. A create request without [custom_prompt] (an explicit null), with
    the driver answering and a fresh uuid, is answered with status 500
    although the document has been stored; fetching the new id afterwards
    is answered with status 500 as well. *)
Theorem create_without_prompt_stores_and_fails (env env' : Env)
    (create : TranscriptCreate.t) (w : World) :
  write_fault env = None ->
  List.find (has_id (uuid4 env)) (transcripts w) = None ->
  TranscriptCreate.custom_prompt create = None ->
  find_one_fault env' = None ->
  exists e w' d,
    create_transcript env create w = (Raised e, w')
    /\ status_of e = 500
    /\ transcripts w' = transcripts w ++ [d]
    /\ Transcript.id d = uuid4 env
    /\ Transcript.title d = TranscriptCreate.title create
    /\ Transcript.original_text d = TranscriptCreate.original_text create
    /\ List.find (has_id (uuid4 env)) (transcripts w') = Some d
    /\ exists e', fst (get_transcript env' (uuid4 env) w') = Raised e'
                  /\ status_of e' = 500.
Proof.
  intros Hw Hn Hp Hf.
  unfold create_transcript, try_except, bind, insert_one_transcript,
    TranscriptResponse_of, raise, print, ret.
  cbn [Transcript.id Transcript.custom_prompt].
  rewrite Hw, (proj2 (existsb_find _ _) Hn), Hp.
  eexists. eexists. eexists. split; [reflexivity|].
  cbn [transcripts]. do 5 (split; [reflexivity|]).
  assert (Hfind : List.find (has_id (uuid4 env))
                    (transcripts w
                     ++ [Transcript.Build (uuid4 env)
                           (TranscriptCreate.title create)
                           (TranscriptCreate.original_text create)
                           None None None (bson_datetime (utcnow env)) None])
                  = Some (Transcript.Build (uuid4 env)
                            (TranscriptCreate.title create)
                            (TranscriptCreate.original_text create)
                            None None None (bson_datetime (utcnow env))
                            None)).
  { apply find_app_fresh; [now apply existsb_find|reflexivity]. }
  split; [exact Hfind|].
  erewrite get_transcript_known; [|exact Hf|cbn [transcripts]; exact Hfind].
  cbn. eexists. split; reflexivity.
Qed.

Lemma create_without_prompt_stores_and_fails_witness :
  exists e w',
    create_transcript (quiet None None smtp_ok) create_null world_a
    = (Raised e, w')
    /\ status_of e = 500
    /\ length (transcripts w') = 3%nat.
Proof.
  destruct (create_without_prompt_stores_and_fails
              (quiet None None smtp_ok) (quiet None None smtp_ok)
              create_null world_a eq_refl eq_refl eq_refl eq_refl)
    as (e & w' & d & He & Hs & Ht & _).
  exists e, w'. split; [exact He|]. split; [exact Hs|].
  rewrite Ht, length_app. reflexivity.
Defined.

(** X6. When the driver fails on the insert, or the uuid is already the id
    of a stored document, [create_transcript] raises with status 500 and
    both collections are as before. *)
Theorem create_rejected_keeps_store (env : Env) (create : TranscriptCreate.t)
    (w : World) :
  write_fault env <> None
  \/ List.find (has_id (uuid4 env)) (transcripts w) <> None ->
  exists e w',
    create_transcript env create w = (Raised e, w')
    /\ status_of e = 500
    /\ same_store w w'.
Proof.
  intros H.
  unfold create_transcript, try_except, bind, insert_one_transcript,
    TranscriptResponse_of, raise, print, ret, same_store.
  cbn [Transcript.id Transcript.custom_prompt].
  destruct (write_fault env) as [m|] eqn:Hw.
  { eexists. eexists. split; [reflexivity|]. repeat split. }
  destruct (existsb (has_id (uuid4 env)) (transcripts w)) eqn:He.
  { eexists. eexists. split; [reflexivity|]. repeat split. }
  apply existsb_find in He. destruct H as [H|H]; congruence.
Qed.

Lemma create_rejected_keeps_store_witness :
  exists e w',
    create_transcript create_clash_env create_req world_a = (Raised e, w')
    /\ status_of e = 500
    /\ same_store world_a w'.
Proof.
  apply (create_rejected_keeps_store create_clash_env create_req world_a).
  right. discriminate.
Defined.

(** ** Deletion *)

(** X7. Deleting an id that the store does not hold is answered as not
    found (status 404) and changes neither collection; this is the one
    handler besides [send_email] whose 404 reaches the caller. *)
Theorem delete_unknown_is_not_found (env : Env) (tid : string) (w : World) :
  write_fault env = None ->
  List.find (has_id tid) (transcripts w) = None ->
  exists e w',
    delete_transcript env tid w = (Raised e, w')
    /\ status_of e = 404
    /\ category_of e = NotFound
    /\ same_store w w'.
Proof.
  intros Hw Hn.
  destruct (delete_transcript_absent env tid w Hw Hn) as (w' & He & Ht & Hl).
  eexists. exists w'. split; [exact He|]. repeat split; assumption.
Qed.

Lemma delete_unknown_is_not_found_witness :
  exists e w',
    delete_transcript (quiet None None smtp_ok) "zz" world_a = (Raised e, w')
    /\ status_of e = 404
    /\ category_of e = NotFound
    /\ same_store world_a w'.
Proof.
  apply (delete_unknown_is_not_found (quiet None None smtp_ok) "zz" world_a);
    reflexivity.
Defined.

(** X8. Deleting an id that the store holds, with ids unique and the
    driver answering, removes exactly one document: the collection is one
    shorter, the id is no longer found, every other id is found as before,
    [email_logs] is untouched, and deleting the same id again is answered
    with status 404. *)
Theorem delete_removes_one_document (env env' : Env) (tid : string)
    (w : World) (t : Transcript.t) :
  write_fault env = None ->
  write_fault env' = None ->
  unique_ids w ->
  List.find (has_id tid) (transcripts w) = Some t ->
  exists w',
    delete_transcript env tid w
    = (Returned "Transcript deleted successfully", w')
    /\ S (length (transcripts w')) = length (transcripts w)
    /\ List.find (has_id tid) (transcripts w') = None
    /\ (forall other, other <> tid ->
          List.find (has_id other) (transcripts w')
          = List.find (has_id other) (transcripts w))
    /\ email_logs w' = email_logs w
    /\ fst (delete_transcript env' tid w')
       = Raised (HTTPException 404 "Transcript not found").
Proof.
  intros Hw Hw' Hnd Hs.
  destruct (delete_transcript_present env tid w t Hw Hnd Hs)
    as (w' & He & Hgone & Hothers & Hl).
  exists w'. split; [exact He|].
  split.
  { destruct (delete_transcript_cases env tid w) as (_ & _ & [(e & Hr & _)|[_ Ht]]).
    - rewrite He in Hr. discriminate.
    - rewrite He in Ht. cbn in Ht. rewrite Ht.
      eapply length_remove_first, Hs. }
  split; [exact Hgone|]. split; [exact Hothers|]. split; [exact Hl|].
  destruct (delete_transcript_absent env' tid w' Hw' Hgone) as (w'' & -> & _).
  reflexivity.
Qed.

Lemma delete_removes_one_document_witness :
  exists w',
    delete_transcript (quiet None None smtp_ok) "a" world_a
    = (Returned "Transcript deleted successfully", w')
    /\ List.find (has_id "a") (transcripts w') = None
    /\ List.find (has_id "n") (transcripts w') = Some doc_none
    /\ email_logs w' = [log_a].
Proof.
  assert (H0 : unique_ids world_a).
  { unfold unique_ids. apply (bool_decide_unpack _). vm_compute. exact I. }
  destruct (delete_removes_one_document (quiet None None smtp_ok)
              (quiet None None smtp_ok) "a" world_a doc_a
              eq_refl eq_refl H0 eq_refl)
    as (w' & He & _ & Hg & Ho & Hl & _).
  exists w'. split; [exact He|]. split; [exact Hg|].
  split; [|exact Hl].
  rewrite Ho by discriminate. reflexivity.
Defined.

(** ** More on the email handler *)

(** X9. [send_email] for an id that the store does not hold is answered as
    not found (status 404): the handler raises its own [HTTPException]
    again.  No call is made to the relay and nothing is written. *)
Theorem send_email_unknown_is_not_found (env : Env) (tid : string)
    (req : EmailRequest.t) (w : World) :
  find_one_fault env = None ->
  List.find (has_id tid) (transcripts w) = None ->
  exists e w',
    send_email env tid req w = (Raised e, w')
    /\ e = HTTPException 404 "Transcript not found"
    /\ category_of e = NotFound
    /\ same_store w w'
    /\ smtp_attempts w' = smtp_attempts w.
Proof.
  intros Hf Hn. rewrite (send_email_not_found env tid req w Hf Hn).
  eexists. eexists. split; [reflexivity|]. repeat split.
Qed.

Lemma send_email_unknown_is_not_found_witness :
  exists w',
    send_email (quiet None None smtp_ok) "zz" req_ab world_a
    = (Raised (HTTPException 404 "Transcript not found"), w')
    /\ same_store world_a w'.
Proof.
  destruct (send_email_unknown_is_not_found (quiet None None smtp_ok) "zz"
              req_ab world_a eq_refl eq_refl)
    as (e & w' & He & -> & _ & Hs & _).
  exists w'. split; [exact He|exact Hs].
Defined.

(** X10. When the driver fails on the lookup, [send_email] raises with
    status 500 without calling the relay, and, the write succeeding, adds
    one record with status ["failed"] that carries the request's
    recipients and subject and the text of the error, and no counts. *)
Theorem send_email_lookup_failure_is_logged (env : Env) (tid : string)
    (req : EmailRequest.t) (w : World) (m : string) :
  find_one_fault env = Some m ->
  write_fault env = None ->
  exists e w' log,
    send_email env tid req w = (Raised e, w')
    /\ e = HTTPException 500
             ("Failed to send email: " +:+ str_of env (DriverError m))
    /\ smtp_attempts w' = smtp_attempts w
    /\ transcripts w' = transcripts w
    /\ email_logs w' = email_logs w ++ [log]
    /\ EmailLog.status log = "failed"
    /\ EmailLog.transcript_id log = tid
    /\ EmailLog.recipients log = EmailRequest.recipients req
    /\ EmailLog.subject log = EmailRequest.subject req
    /\ EmailLog.error log = Some (str_of env (DriverError m))
    /\ EmailLog.sent_count log = None
    /\ EmailLog.failed_count log = None
    /\ EmailLog.failed_emails log = None.
Proof.
  intros Hf Hw. rewrite (send_email_lookup_fault env tid req w m Hf), Hw.
  eexists. eexists. eexists. split; [reflexivity|]. repeat split.
Qed.

Lemma send_email_lookup_failure_is_logged_witness :
  exists w' log,
    fst (send_email (quiet (Some "down") None smtp_ok) "a" req_ab world_a)
    = Raised (HTTPException 500 "Failed to send email: down")
    /\ w' = snd (send_email (quiet (Some "down") None smtp_ok) "a" req_ab
                   world_a)
    /\ email_logs w' = [log_a; log]
    /\ EmailLog.status log = "failed"
    /\ EmailLog.error log = Some "down".
Proof.
  destruct (send_email_lookup_failure_is_logged
              (quiet (Some "down") None smtp_ok) "a" req_ab world_a "down"
              eq_refl eq_refl)
    as (e & w' & log & He & -> & _ & _ & Hl & Hs & _ & _ & _ & Herr & _).
  exists w', log. rewrite He. split; [reflexivity|].
  split; [reflexivity|]. split; [exact Hl|]. split; [exact Hs|exact Herr].
Defined.

(** X11. A request with an empty recipient list, on a transcript with a
    summary, is answered as a success for 0 recipients: no call is made to
    the relay, and the record written has status ["sent"] with both counts
    0. *)
Theorem send_email_no_recipients (env : Env) (tid : string)
    (req : EmailRequest.t) (w : World) (t : Transcript.t) :
  find_one_fault env = None ->
  List.find (has_id tid) (transcripts w) = Some t ->
  truthy (summary_of t) = true ->
  EmailRequest.recipients req = [] ->
  exists w',
    send_email env tid req w
    = (Returned (EmailResponse.Build "Email sent successfully to 0 recipients"
                   [] (EmailRequest.subject req) [] None), w')
    /\ smtp_attempts w' = smtp_attempts w
    /\ (write_fault env = None ->
        exists log,
          email_logs w' = email_logs w ++ [log]
          /\ EmailLog.status log = "sent"
          /\ EmailLog.sent_count log = Some 0%nat
          /\ EmailLog.failed_count log = Some 0%nat
          /\ EmailLog.failed_emails log = Some []).
Proof.
  intros Hf Hs Ht Hr.
  rewrite (send_email_delivered env tid req w t Hf Hs Ht).
  unfold calls_for. rewrite Hr. cbn [sent_of failed_of map].
  eexists. split.
  { unfold delivery_response. cbn. rewrite Hr. reflexivity. }
  cbn [smtp_attempts email_logs]. split; [apply app_nil_r|].
  intros Hw. rewrite Hw. eexists. split; [reflexivity|]. repeat split.
Qed.

Lemma send_email_no_recipients_witness :
  exists w',
    send_email (quiet None None smtp_ok) "a" req_none world_a
    = (Returned (EmailResponse.Build "Email sent successfully to 0 recipients"
                   [] None [] None), w')
    /\ smtp_attempts w' = [].
Proof.
  destruct (send_email_no_recipients (quiet None None smtp_ok) "a" req_none
              world_a doc_a eq_refl eq_refl eq_refl eq_refl)
    as (w' & He & Ha & _).
  exists w'. split; [exact He|exact Ha].
Defined.

Lemma all_fail_lists (env : Env) (rs : list string) :
  (forall k r, smtp_fault env k [r] <> None) ->
  forall k, sent_of env k rs = []
            /\ map FailedEmail.email (failed_of env k rs) = rs.
Proof.
  intros Hall. induction rs as [|r rs IH]; intros k; cbn; [now split|].
  destruct (smtp_fault env k [r]) eqn:E; [|now apply Hall in E].
  destruct (IH (S k)) as [IH1 IH2]. cbn. now rewrite IH1, IH2.
Qed.

(** X12. When the relay fails every call, [send_email] still returns a
    response and raises nothing: [sent_emails] is empty, [failed_emails]
    lists every recipient in request order, and for a non-empty request
    the record written has status ["partial"] with [sent_count] 0. *)
Theorem send_email_all_deliveries_fail (env : Env) (tid : string)
    (req : EmailRequest.t) (w : World) (t : Transcript.t) :
  find_one_fault env = None ->
  List.find (has_id tid) (transcripts w) = Some t ->
  truthy (summary_of t) = true ->
  (forall k r, smtp_fault env k [r] <> None) ->
  EmailRequest.recipients req <> [] ->
  exists resp w',
    send_email env tid req w = (Returned resp, w')
    /\ EmailResponse.sent_emails resp = []
    /\ failed_addresses resp = EmailRequest.recipients req
    /\ EmailResponse.failed_emails resp <> None
    /\ (write_fault env = None ->
        exists log,
          email_logs w' = email_logs w ++ [log]
          /\ EmailLog.status log = "partial"
          /\ EmailLog.sent_count log = Some 0%nat
          /\ EmailLog.failed_count log
             = Some (length (EmailRequest.recipients req))).
Proof.
  intros Hf Hs Ht Hall Hne.
  rewrite (send_email_delivered env tid req w t Hf Hs Ht).
  destruct (all_fail_lists env (EmailRequest.recipients req) Hall
              (length (smtp_attempts w))) as [Hsent Hfailed].
  assert (Hnil : failed_of env (length (smtp_attempts w))
                   (EmailRequest.recipients req) <> []).
  { intros E. rewrite E in Hfailed. cbn in Hfailed. congruence. }
  eexists. eexists. split; [reflexivity|].
  rewrite sent_emails_delivery, failed_addresses_delivery.
  split; [exact Hsent|]. split; [exact Hfailed|]. split.
  { unfold delivery_response.
    destruct (failed_of _ _ _); [congruence|discriminate]. }
  intros Hw. cbn [email_logs]. rewrite Hw.
  eexists. split; [reflexivity|]. cbn.
  rewrite Hsent. rewrite <- Hfailed at 3. rewrite length_map.
  destruct (failed_of _ _ _); [congruence|]. repeat split.
Qed.

Lemma send_email_all_deliveries_fail_witness :
  exists resp w',
    send_email (quiet None None smtp_down) "a" req_ab world_a
    = (Returned resp, w')
    /\ EmailResponse.sent_emails resp = []
    /\ failed_addresses resp = ["a@x.com"; "b@x.com"].
Proof.
  destruct (send_email_all_deliveries_fail (quiet None None smtp_down) "a"
              req_ab world_a doc_a eq_refl eq_refl eq_refl
              ltac:(discriminate) ltac:(discriminate))
    as (resp & w' & He & Hs & Hfa & _).
  exists resp, w'. split; [exact He|]. split; [exact Hs|exact Hfa].
Defined.

(** X13. The subject of the mails is the request's subject when that is a
    non-empty string, and ["Meeting Summary: "] followed by the title when
    it is missing or empty; the response and the record keep the
    request's subject as it was given. *)
Theorem send_email_subject_fallback (env : Env) (tid : string)
    (req : EmailRequest.t) (w : World) (t : Transcript.t) :
  find_one_fault env = None ->
  write_fault env = None ->
  List.find (has_id tid) (transcripts w) = Some t ->
  truthy (summary_of t) = true ->
  let used :=
    match EmailRequest.subject req with
    | Some s => if String.eqb s "" then "Meeting Summary: " +:+ Transcript.title t
                else s
    | None => "Meeting Summary: " +:+ Transcript.title t
    end in
  exists resp w' calls log,
    send_email env tid req w = (Returned resp, w')
    /\ smtp_attempts w' = smtp_attempts w ++ calls
    /\ length calls = length (EmailRequest.recipients req)
    /\ Forall (fun c => SmtpCall.subject c = used) calls
    /\ EmailResponse.subject resp = EmailRequest.subject req
    /\ email_logs w' = email_logs w ++ [log]
    /\ EmailLog.subject log = EmailRequest.subject req.
Proof.
  intros Hf Hw Hs Ht used.
  rewrite (send_email_delivered env tid req w t Hf Hs Ht), Hw.
  eexists. eexists. exists (calls_for req t). eexists.
  split; [reflexivity|]. cbn [smtp_attempts email_logs].
  split; [reflexivity|]. split; [apply length_map|]. split.
  { unfold calls_for. apply Forall_fmap, Forall_forall. intros r _. cbn.
    unfold subject_used, py_or, truthy, used.
    destruct (EmailRequest.subject req) as [s|]; [|reflexivity].
    destruct (String.eqb s ""); reflexivity. }
  split.
  { unfold delivery_response. destruct (is_nil _); reflexivity. }
  split; reflexivity.
Qed.

Lemma send_email_subject_fallback_witness :
  exists resp w',
    send_email (quiet None None smtp_ok) "a" req_blank_subject world_a
    = (Returned resp, w')
    /\ map SmtpCall.subject (smtp_attempts w') = ["Meeting Summary: Standup"]
    /\ EmailResponse.subject resp = Some "".
Proof.
  destruct (send_email_subject_fallback (quiet None None smtp_ok) "a"
              req_blank_subject world_a doc_a eq_refl eq_refl eq_refl eq_refl)
    as (resp & w' & calls & log & He & Ha & Hlen & Hall & Hsub & _).
  exists resp, w'. split; [exact He|]. split; [|exact Hsub].
  rewrite Ha. cbn.
  destruct calls as [|c [|c' calls]]; try discriminate Hlen.
  apply (proj1 (Forall_singleton _ _)) in Hall. cbn. f_equal. exact Hall.
Defined.

Lemma summary_of_edited (t : Transcript.t) (edited : string) :
  Transcript.edited_summary t = Some edited ->
  edited <> "" ->
  summary_of t = Some edited /\ truthy (summary_of t) = true.
Proof.
  intros He Hne. unfold summary_of, py_or. rewrite He.
  rewrite (truthy_nonempty edited Hne). split; [reflexivity|].
  now apply truthy_nonempty.
Qed.

(** X14. An [edited_summary] that is a non-empty string is what is
    mailed, whatever the [generated_summary] is: every call to the relay
    carries the body built from the title and the edited text. *)
Theorem send_email_prefers_edited (env : Env) (tid : string)
    (req : EmailRequest.t) (w : World) (t : Transcript.t) (edited : string) :
  find_one_fault env = None ->
  List.find (has_id tid) (transcripts w) = Some t ->
  Transcript.edited_summary t = Some edited ->
  edited <> "" ->
  exists resp w',
    send_email env tid req w = (Returned resp, w')
    /\ smtp_attempts w'
       = smtp_attempts w
         ++ map (fun r => SmtpCall.Build [r] (subject_used req t)
                            (email_body (Transcript.title t) edited))
                (EmailRequest.recipients req).
Proof.
  intros Hf Hs He Hne.
  destruct (summary_of_edited t edited He Hne) as [Hsum Ht].
  rewrite (send_email_delivered env tid req w t Hf Hs Ht).
  eexists. eexists. split; [reflexivity|]. cbn [smtp_attempts].
  unfold calls_for. now rewrite Hsum.
Qed.

Lemma send_email_prefers_edited_witness :
  exists resp w',
    send_email (quiet None None smtp_ok) "w" req_blank_subject world_c
    = (Returned resp, w')
    /\ map SmtpCall.message_text (smtp_attempts w')
       = [email_body "Review" "edited"].
Proof.
  destruct (send_email_prefers_edited (quiet None None smtp_ok) "w"
              req_blank_subject world_c doc_new "edited"
              eq_refl eq_refl eq_refl ltac:(discriminate))
    as (resp & w' & He & Ha).
  exists resp, w'. split; [exact He|]. rewrite Ha. reflexivity.
Defined.

(** ** Summarization *)

Lemma generate_summary_answered (env : Env) (gemini : string -> GeminiAnswer)
    (tid : string) (w : World) (t : Transcript.t) (s : string) :
  find_one_fault env = None ->
  write_fault env = None ->
  List.find (has_id tid) (transcripts w) = Some t ->
  gemini (full_prompt (Transcript.original_text t) (Transcript.custom_prompt t))
  = GeminiText s ->
  generate_summary env gemini tid w =
  (Returned s,
   BuildWorld
     (set_first tid (set_generated_summary s (utcnow env)) (transcripts w))
     (email_logs w) (smtp_attempts w) (stdout w)).
Proof.
  intros Hf Hw Hs Hg.
  unfold generate_summary, generate_summary_with_gemini, try_except, bind,
    find_one, update_one, raise, print, ret.
  rewrite Hf, Hs, Hg, Hw. reflexivity.
Qed.

Lemma update_summary_done (env : Env) (tid : string)
    (update : TranscriptUpdate.t) (w : World) (t : Transcript.t) :
  find_one_fault env = None ->
  write_fault env = None ->
  List.find (has_id tid) (transcripts w) = Some t ->
  update_summary env tid update w =
  (Returned "Summary updated successfully",
   BuildWorld
     (set_first tid
        (set_edited_summary (TranscriptUpdate.edited_summary update)
           (utcnow env))
        (transcripts w))
     (email_logs w) (smtp_attempts w) (stdout w)).
Proof.
  intros Hf Hw Hs.
  unfold update_summary, try_except, bind, find_one, update_one, ret.
  rewrite Hf, Hs, Hw. reflexivity.
Qed.

Lemma find_after_set (tid : string) (f : Transcript.t -> Transcript.t)
    (ds : list Transcript.t) (t : Transcript.t) :
  (forall d, Transcript.id (f d) = Transcript.id d) ->
  List.find (has_id tid) ds = Some t ->
  List.find (has_id tid) (set_first tid f ds) = Some (f t).
Proof.
  intros Hid Hs. rewrite find_set_first by exact Hid.
  now rewrite String.eqb_refl, Hs.
Qed.

(** X15. A successful [generate_summary] returns the text that the
    generation API answered to the prompt built from the transcript's
    prompt and text, stores it as [generated_summary] with the clock's
    reading, cut to the millisecond that the store keeps, as [updated_at],
    and leaves [edited_summary], the other fields, the other transcripts
    and [email_logs] as they were. *)
Theorem generate_summary_stores_answer (env : Env)
    (gemini : string -> GeminiAnswer) (tid : string) (w : World)
    (t : Transcript.t) (s : string) :
  find_one_fault env = None ->
  write_fault env = None ->
  List.find (has_id tid) (transcripts w) = Some t ->
  gemini (full_prompt (Transcript.original_text t) (Transcript.custom_prompt t))
  = GeminiText s ->
  exists w' t',
    generate_summary env gemini tid w = (Returned s, w')
    /\ List.find (has_id tid) (transcripts w') = Some t'
    /\ Transcript.generated_summary t' = Some s
    /\ Transcript.updated_at t' = Some (bson_datetime (utcnow env))
    /\ Transcript.edited_summary t' = Transcript.edited_summary t
    /\ Transcript.title t' = Transcript.title t
    /\ Transcript.original_text t' = Transcript.original_text t
    /\ Transcript.custom_prompt t' = Transcript.custom_prompt t
    /\ Transcript.id t' = Transcript.id t
    /\ Transcript.created_at t' = Transcript.created_at t
    /\ (forall other, other <> tid ->
          List.find (has_id other) (transcripts w')
          = List.find (has_id other) (transcripts w))
    /\ email_logs w' = email_logs w.
Proof.
  intros Hf Hw Hs Hg.
  rewrite (generate_summary_answered env gemini tid w t s Hf Hw Hs Hg).
  eexists. exists (set_generated_summary s (utcnow env) t).
  split; [reflexivity|]. cbn [transcripts email_logs].
  split; [now apply find_after_set|].
  do 8 (split; [reflexivity|]).
  split; [|reflexivity].
  intros other Hne. rewrite find_set_first by reflexivity.
  destruct (String.eqb_spec tid other); [congruence|reflexivity].
Qed.

Lemma generate_summary_stores_answer_witness :
  exists w' t',
    generate_summary (quiet None None smtp_ok) gemini_echo "w" world_c
    = (Returned
         ("summary of: "
          +:+ full_prompt "we reviewed" (Some "Summarize")), w')
    /\ List.find (has_id "w") (transcripts w') = Some t'
    /\ Transcript.edited_summary t' = Some "edited"
    /\ Transcript.updated_at t' = Some 2000.
Proof.
  destruct (generate_summary_stores_answer (quiet None None smtp_ok)
              gemini_echo "w" world_c doc_new _ eq_refl eq_refl eq_refl eq_refl)
    as (w' & t' & He & Hfind & _ & Hup & Hed & _).
  exists w', t'. split; [exact He|]. split; [exact Hfind|].
  split; [exact Hed|exact Hup].
Defined.

(** X16. When the generation API fails, [generate_summary] raises with
    status 500 and a detail that starts with ["Database error: "] and
    holds the cause wrapped twice as ["Error generating summary: "]; the
    store is as before. *)
Theorem generate_summary_api_failure (env : Env)
    (gemini : string -> GeminiAnswer) (tid : string) (w : World)
    (t : Transcript.t) (m : string) :
  find_one_fault env = None ->
  List.find (has_id tid) (transcripts w) = Some t ->
  gemini (full_prompt (Transcript.original_text t) (Transcript.custom_prompt t))
  = GeminiError m ->
  exists w',
    generate_summary env gemini tid w
    = (Raised
         (HTTPException 500
            ("Database error: "
             +:+ str_of env
                   (HTTPException 500
                      ("Error generating summary: "
                       +:+ str_of env
                             (HTTPException 500
                                ("Error generating summary: "
                                 +:+ str_of env (DriverError m))))))), w')
    /\ same_store w w'.
Proof.
  intros Hf Hs Hg.
  unfold generate_summary, generate_summary_with_gemini, try_except, bind,
    find_one, update_one, raise, print, ret.
  rewrite Hf, Hs, Hg.
  eexists. split; [reflexivity|]. split; reflexivity.
Qed.

Lemma generate_summary_api_failure_witness :
  exists w',
    generate_summary (quiet None None smtp_ok) gemini_down "a" world_a
    = (Raised
         (HTTPException 500
            "Database error: 500: Error generating summary: 500: Error generating summary: quota exceeded"),
       w')
    /\ same_store world_a w'.
Proof.
  apply (generate_summary_api_failure (quiet None None smtp_ok) gemini_down
           "a" world_a doc_a "quota exceeded"); reflexivity.
Defined.

(** ** Handlers one after another *)

(** X17. After a successful [generate_summary] on a transcript without a
    usable edited summary, [send_email] mails the generated text when it
    is not empty, and is answered with the no-summary error (status 400)
    when the generation API answered with the empty string. *)
Theorem generated_summary_is_mailed (env env' : Env)
    (gemini : string -> GeminiAnswer) (tid : string) (req : EmailRequest.t)
    (w : World) (t : Transcript.t) (s : string) :
  find_one_fault env = None ->
  write_fault env = None ->
  find_one_fault env' = None ->
  List.find (has_id tid) (transcripts w) = Some t ->
  truthy (Transcript.edited_summary t) = false ->
  gemini (full_prompt (Transcript.original_text t) (Transcript.custom_prompt t))
  = GeminiText s ->
  exists w1,
    generate_summary env gemini tid w = (Returned s, w1)
    /\ (s <> "" ->
        exists resp w2,
          send_email env' tid req w1 = (Returned resp, w2)
          /\ smtp_attempts w2
             = smtp_attempts w
               ++ map (fun r => SmtpCall.Build [r] (subject_used req t)
                                  (email_body (Transcript.title t) s))
                      (EmailRequest.recipients req))
    /\ (s = "" ->
        fst (send_email env' tid req w1)
        = Raised (HTTPException 400 "No summary available to send")).
Proof.
  intros Hf Hw Hf' Hs He Hg.
  rewrite (generate_summary_answered env gemini tid w t s Hf Hw Hs Hg).
  eexists. split; [reflexivity|].
  set (t' := set_generated_summary s (utcnow env) t).
  set (w1 := BuildWorld _ _ _ _).
  assert (Hs1 : List.find (has_id tid) (transcripts w1) = Some t').
  { now apply find_after_set. }
  assert (Hsum : summary_of t' = Some s).
  { unfold summary_of, py_or. cbn. now rewrite He. }
  split.
  - intros Hne.
    assert (Ht : truthy (summary_of t') = true).
    { rewrite Hsum. now apply truthy_nonempty. }
    rewrite (send_email_delivered env' tid req w1 t' Hf' Hs1 Ht).
    eexists. eexists. split; [reflexivity|]. cbn [smtp_attempts].
    unfold calls_for. rewrite Hsum. reflexivity.
  - intros ->.
    assert (Ht : truthy (summary_of t') = false) by now rewrite Hsum.
    now rewrite (send_email_no_summary env' tid req w1 t' Hf' Hs1 Ht).
Qed.

Lemma generated_summary_is_mailed_witness :
  exists w1,
    generate_summary (quiet None None smtp_ok) gemini_blank "n" world_a
    = (Returned "", w1)
    /\ fst (send_email (quiet None None smtp_ok) "n" req_ab w1)
       = Raised (HTTPException 400 "No summary available to send").
Proof.
  destruct (generated_summary_is_mailed (quiet None None smtp_ok)
              (quiet None None smtp_ok) gemini_blank "n" req_ab world_a
              doc_none "" eq_refl eq_refl eq_refl eq_refl eq_refl eq_refl)
    as (w1 & He & _ & H400).
  exists w1. split; [exact He|]. apply H400. reflexivity.
Defined.

(** X18. A new generated summary does not displace an edit: on a
    transcript whose edited summary is a non-empty string, [send_email]
    after a successful [generate_summary] still mails the edited text. *)
Theorem regeneration_keeps_edit (env env' : Env)
    (gemini : string -> GeminiAnswer) (tid : string) (req : EmailRequest.t)
    (w : World) (t : Transcript.t) (s edited : string) :
  find_one_fault env = None ->
  write_fault env = None ->
  find_one_fault env' = None ->
  List.find (has_id tid) (transcripts w) = Some t ->
  Transcript.edited_summary t = Some edited ->
  edited <> "" ->
  gemini (full_prompt (Transcript.original_text t) (Transcript.custom_prompt t))
  = GeminiText s ->
  exists w1 resp w2,
    generate_summary env gemini tid w = (Returned s, w1)
    /\ send_email env' tid req w1 = (Returned resp, w2)
    /\ smtp_attempts w2
       = smtp_attempts w
         ++ map (fun r => SmtpCall.Build [r] (subject_used req t)
                            (email_body (Transcript.title t) edited))
                (EmailRequest.recipients req).
Proof.
  intros Hf Hw Hf' Hs He Hne Hg.
  rewrite (generate_summary_answered env gemini tid w t s Hf Hw Hs Hg).
  eexists.
  set (t' := set_generated_summary s (utcnow env) t).
  set (w1 := BuildWorld _ _ _ _).
  assert (Hs1 : List.find (has_id tid) (transcripts w1) = Some t').
  { now apply find_after_set. }
  destruct (summary_of_edited t' edited He Hne) as [Hsum Ht].
  rewrite (send_email_delivered env' tid req w1 t' Hf' Hs1 Ht).
  eexists. eexists. split; [reflexivity|]. split; [reflexivity|].
  cbn [smtp_attempts]. unfold calls_for. now rewrite Hsum.
Qed.

Lemma regeneration_keeps_edit_witness :
  exists w1 resp w2,
    generate_summary (quiet None None smtp_ok) gemini_echo "w" world_c
    = (Returned ("summary of: " +:+ full_prompt "we reviewed" (Some "Summarize")),
       w1)
    /\ send_email (quiet None None smtp_ok) "w" req_ab w1 = (Returned resp, w2)
    /\ map SmtpCall.message_text (smtp_attempts w2)
       = [email_body "Review" "edited"; email_body "Review" "edited"].
Proof.
  destruct (regeneration_keeps_edit (quiet None None smtp_ok)
              (quiet None None smtp_ok) gemini_echo "w" req_ab world_c doc_new
              _ "edited" eq_refl eq_refl eq_refl eq_refl eq_refl
              ltac:(discriminate) eq_refl)
    as (w1 & resp & w2 & Hg & Hsend & Ha).
  exists w1, resp, w2. split; [exact Hg|]. split; [exact Hsend|].
  rewrite Ha. reflexivity.
Defined.

(** X19. After a successful [update_summary] on a transcript that has a
    prompt, [get_transcript] returns the new [edited_summary] and, as
    [updated_at], the clock's reading at the update cut to the millisecond
    that the store keeps, with all other fields as stored before. *)
Theorem update_then_get (env env' : Env) (tid : string)
    (update : TranscriptUpdate.t) (w : World) (t : Transcript.t) (p : string) :
  find_one_fault env = None ->
  write_fault env = None ->
  find_one_fault env' = None ->
  List.find (has_id tid) (transcripts w) = Some t ->
  Transcript.custom_prompt t = Some p ->
  exists w1 r,
    update_summary env tid update w
    = (Returned "Summary updated successfully", w1)
    /\ get_transcript env' tid w1 = (Returned r, w1)
    /\ TranscriptResponse.edited_summary r
       = Some (TranscriptUpdate.edited_summary update)
    /\ TranscriptResponse.updated_at r = Some (bson_datetime (utcnow env))
    /\ TranscriptResponse.generated_summary r = Transcript.generated_summary t
    /\ TranscriptResponse.id r = Transcript.id t
    /\ TranscriptResponse.title r = Transcript.title t
    /\ TranscriptResponse.original_text r = Transcript.original_text t
    /\ TranscriptResponse.custom_prompt r = p
    /\ TranscriptResponse.created_at r = Transcript.created_at t.
Proof.
  intros Hf Hw Hf' Hs Hp.
  rewrite (update_summary_done env tid update w t Hf Hw Hs).
  eexists. eexists. split; [reflexivity|].
  erewrite get_transcript_known; [|exact Hf'|].
  2:{ cbn [transcripts]. apply find_after_set; [reflexivity|exact Hs]. }
  cbn. rewrite Hp. split; [reflexivity|]. repeat split.
Qed.

Lemma update_then_get_witness :
  exists w1 r,
    update_summary (quiet None None smtp_ok) "a"
      (TranscriptUpdate.Build "edited") world_a
    = (Returned "Summary updated successfully", w1)
    /\ get_transcript (quiet None None smtp_ok) "a" w1 = (Returned r, w1)
    /\ TranscriptResponse.edited_summary r = Some "edited"
    /\ TranscriptResponse.generated_summary r = Some "generated".
Proof.
  destruct (update_then_get (quiet None None smtp_ok) (quiet None None smtp_ok)
              "a" (TranscriptUpdate.Build "edited") world_a doc_a "Summarize"
              eq_refl eq_refl eq_refl eq_refl eq_refl)
    as (w1 & r & Hu & Hg & He & _ & Hgen & _).
  exists w1, r. split; [exact Hu|]. split; [exact Hg|].
  split; [exact He|exact Hgen].
Defined.

(** X20. After a successful [update_summary], [send_email] mails the new
    edited text when it is not empty.  An update to the empty string
    clears the edit: the mail then carries the generated summary, and when
    there is none to use the request is answered with the no-summary
    error. *)
Theorem update_then_send (env env' : Env) (tid : string)
    (update : TranscriptUpdate.t) (req : EmailRequest.t) (w : World)
    (t : Transcript.t) :
  find_one_fault env = None ->
  write_fault env = None ->
  find_one_fault env' = None ->
  List.find (has_id tid) (transcripts w) = Some t ->
  let s := TranscriptUpdate.edited_summary update in
  exists w1,
    update_summary env tid update w
    = (Returned "Summary updated successfully", w1)
    /\ (s <> "" ->
        exists resp w2,
          send_email env' tid req w1 = (Returned resp, w2)
          /\ smtp_attempts w2
             = smtp_attempts w
               ++ map (fun r => SmtpCall.Build [r] (subject_used req t)
                                  (email_body (Transcript.title t) s))
                      (EmailRequest.recipients req))
    /\ (s = "" ->
        forall g, Transcript.generated_summary t = Some g -> g <> "" ->
        exists resp w2,
          send_email env' tid req w1 = (Returned resp, w2)
          /\ smtp_attempts w2
             = smtp_attempts w
               ++ map (fun r => SmtpCall.Build [r] (subject_used req t)
                                  (email_body (Transcript.title t) g))
                      (EmailRequest.recipients req))
    /\ (s = "" ->
        truthy (Transcript.generated_summary t) = false ->
        fst (send_email env' tid req w1)
        = Raised (HTTPException 400 "No summary available to send")).
Proof.
  intros Hf Hw Hf' Hs s.
  rewrite (update_summary_done env tid update w t Hf Hw Hs).
  eexists. split; [reflexivity|].
  set (t' := set_edited_summary s (utcnow env) t).
  set (w1 := BuildWorld _ _ _ _).
  assert (Hs1 : List.find (has_id tid) (transcripts w1) = Some t').
  { now apply find_after_set. }
  split; [|split].
  - intros Hne.
    destruct (summary_of_edited t' s eq_refl Hne) as [Hsum Ht].
    rewrite (send_email_delivered env' tid req w1 t' Hf' Hs1 Ht).
    eexists. eexists. split; [reflexivity|]. cbn [smtp_attempts].
    unfold calls_for. now rewrite Hsum.
  - intros Hempty g Hg Hne.
    assert (Hsum : summary_of t' = Some g).
    { unfold summary_of, py_or. cbn. rewrite Hempty. cbn. exact Hg. }
    assert (Ht : truthy (summary_of t') = true).
    { rewrite Hsum. now apply truthy_nonempty. }
    rewrite (send_email_delivered env' tid req w1 t' Hf' Hs1 Ht).
    eexists. eexists. split; [reflexivity|]. cbn [smtp_attempts].
    unfold calls_for. now rewrite Hsum.
  - intros Hempty Hg.
    assert (Ht : truthy (summary_of t') = false).
    { unfold summary_of, py_or. cbn. rewrite Hempty. cbn. exact Hg. }
    now rewrite (send_email_no_summary env' tid req w1 t' Hf' Hs1 Ht).
Qed.

Lemma update_then_send_witness :
  exists w1 resp w2,
    update_summary (quiet None None smtp_ok) "w" (TranscriptUpdate.Build "")
      world_c
    = (Returned "Summary updated successfully", w1)
    /\ send_email (quiet None None smtp_ok) "w" req_blank_subject w1
       = (Returned resp, w2)
    /\ map SmtpCall.message_text (smtp_attempts w2)
       = [email_body "Review" "generated"].
Proof.
  destruct (update_then_send (quiet None None smtp_ok)
              (quiet None None smtp_ok) "w" (TranscriptUpdate.Build "")
              req_blank_subject world_c doc_new eq_refl eq_refl eq_refl eq_refl)
    as (w1 & Hu & _ & Hgen & _).
  destruct (Hgen eq_refl "generated" eq_refl ltac:(discriminate))
    as (resp & w2 & Hsend & Ha).
  exists w1, resp, w2. split; [exact Hu|]. split; [exact Hsend|].
  rewrite Ha. reflexivity.
Defined.

(** ** Listing *)

Lemma responses_match (docs : list Transcript.t) :
  List.find (fun d => negb (bool_decide (is_Some (Transcript.custom_prompt d))))
    docs = None ->
  Forall2 response_matches
    (omap (fun d =>
             match Transcript.custom_prompt d with
             | Some p =>
                 Some (TranscriptResponse.Build
                         (Transcript.id d) (Transcript.title d)
                         (Transcript.original_text d) p
                         (Transcript.generated_summary d)
                         (Transcript.edited_summary d)
                         (Transcript.created_at d)
                         (Transcript.updated_at d))
             | None => None
             end) docs) docs.
Proof.
  induction docs as [|d docs IH]; cbn; [constructor|].
  destruct (Transcript.custom_prompt d) as [p|] eqn:Hp; cbn.
  - intros Hn. constructor; [|now apply IH].
    unfold response_matches. cbn. now rewrite Hp.
  - discriminate.
Qed.

Lemma find_missing_prompt (docs : list Transcript.t) (d : Transcript.t) :
  d ∈ docs -> Transcript.custom_prompt d = None ->
  List.find (fun d => negb (bool_decide (is_Some (Transcript.custom_prompt d))))
    docs <> None.
Proof.
  induction docs as [|x docs IH]; intros Hin Hp.
  - now apply elem_of_nil in Hin.
  - cbn. destruct (bool_decide _) eqn:E; cbn; [|discriminate].
    apply elem_of_cons in Hin as [->|Hin]; [|now apply IH].
    apply bool_decide_eq_true_1 in E. rewrite Hp in E.
    destruct E. discriminate.
Qed.

Lemma responses_ids (rs : list TranscriptResponse.t)
    (ds : list Transcript.t) :
  Forall2 response_matches rs ds ->
  map TranscriptResponse.id rs = map Transcript.id ds.
Proof.
  induction 1 as [|r d rs ds (Hid & _) _ IH]; cbn; [reflexivity|].
  now rewrite Hid, IH.
Qed.

Lemma responses_created_at (rs : list TranscriptResponse.t)
    (ds : list Transcript.t) :
  Forall2 response_matches rs ds ->
  map TranscriptResponse.created_at rs = map Transcript.created_at ds.
Proof.
  induction 1 as [|r d rs ds (_ & _ & _ & _ & _ & _ & Hcr & _) _ IH]; cbn;
    [reflexivity|].
  now rewrite Hcr, IH.
Qed.

(** X21. When the cursor answers and every document it yields has a
    prompt, [get_transcripts] returns one record per document, in the
    cursor's order and with the document's fields, and changes nothing. *)
Theorem get_transcripts_lists_cursor (env : Env) (c : Cursor) (w : World) :
  cursor_fault c = None ->
  Forall (fun d => Transcript.custom_prompt d <> None)
    (cursor_order c (transcripts w)) ->
  exists rs,
    get_transcripts env c w = (Returned rs, w)
    /\ Forall2 response_matches rs (cursor_order c (transcripts w))
    /\ map TranscriptResponse.id rs
       = map Transcript.id (cursor_order c (transcripts w))
    /\ map TranscriptResponse.created_at rs
       = map Transcript.created_at (cursor_order c (transcripts w)).
Proof.
  intros Hc Hall.
  unfold get_transcripts, try_except, bind, find_sorted.
  rewrite Hc. rewrite collect_eq.
  destruct (List.find _ _) as [d|] eqn:Hfind.
  { apply find_some in Hfind as [Hin Hd].
    rewrite Forall_forall in Hall.
    apply list_elem_of_In, Hall in Hin.
    destruct (Transcript.custom_prompt d); [|congruence].
    rewrite bool_decide_eq_true_2 in Hd by (now eexists). discriminate. }
  pose proof (responses_match _ Hfind) as Hm.
  eexists. split; [reflexivity|]. cbn [app].
  split; [exact Hm|].
  split; [now apply responses_ids|now apply responses_created_at].
Qed.

Lemma get_transcripts_lists_cursor_witness :
  exists rs,
    get_transcripts (quiet None None smtp_ok) cursor_ok world_c
    = (Returned rs, world_c)
    /\ map TranscriptResponse.id rs = ["w"; "o"]
    /\ map TranscriptResponse.created_at rs = [3000; 500].
Proof.
  destruct (get_transcripts_lists_cursor (quiet None None smtp_ok) cursor_ok
              world_c eq_refl)
    as (rs & He & _ & Hid & Hcr).
  { repeat constructor; discriminate. }
  exists rs. split; [exact He|]. split; [exact Hid|exact Hcr].
Defined.

(** X22. One stored document without a prompt makes the whole listing
    fail: when the cursor yields such a document, [get_transcripts] raises
    with status 500 and returns no record at all. *)
Theorem get_transcripts_fails_on_missing_prompt (env : Env) (c : Cursor)
    (w : World) (d : Transcript.t) :
  cursor_fault c = None ->
  d ∈ cursor_order c (transcripts w) ->
  Transcript.custom_prompt d = None ->
  exists w',
    get_transcripts env c w
    = (Raised (HTTPException 500
                 ("Database error: "
                  +:+ str_of env (ValidationError "custom_prompt"))), w')
    /\ same_store w w'.
Proof.
  intros Hc Hin Hp.
  unfold get_transcripts, try_except, bind, find_sorted, raise, print.
  rewrite Hc. rewrite collect_eq.
  destruct (List.find _ _) eqn:Hfind.
  - eexists. split; [reflexivity|]. split; reflexivity.
  - now apply (find_missing_prompt _ d Hin Hp) in Hfind.
Qed.

Lemma get_transcripts_fails_on_missing_prompt_witness :
  exists w',
    get_transcripts (quiet None None smtp_ok) cursor_ok world_null
    = (Raised (HTTPException 500
                 "Database error: validation error: custom_prompt"), w')
    /\ same_store world_null w'.
Proof.
  apply (get_transcripts_fails_on_missing_prompt (quiet None None smtp_ok)
           cursor_ok world_null doc_null eq_refl).
  - cbn. apply list_elem_of_further, list_elem_of_here.
  - reflexivity.
Defined.
